(** * Verification of [plugins/resources.py] (inmanta [std] module)

    A shallow embedding of the resource definitions and handlers of
    [plugins/resources.py]: the content assembler ([generate_content],
    [store_file]), the field mapping [AgentConfig.get_autostart], and the
    handlers [PosixFileProvider], [SystemdService], [ServiceService],
    [YumPackage] and [AgentConfigHandler].

    Conventions of the embedding:
    - Python [str] is [string]; characters are code points below 256.
    - Python [dict] is stdpp's [gmap]; a missing key is [KeyError].
    - A method that may raise returns a [result]; a method with effects
      runs in the state-and-exception monad [M].
    - The agent's [_io] object, the content store and the remote settings
      service are collaborators outside this file.  Their queries
      ([file_exists], [run], [get_file]) are functions a handler is
      given; their commands ([put], [chmod], [chown], [remove]) are
      recorded in call order and taken to return normally. *)

From Stdlib Require Import String Ascii List Bool Permutation Sorted.
From stdpp Require Import base option gmap strings list fin_maps pretty.
Import ListNotations.
Local Open Scope string_scope.

(** ** Exceptions and results *)

Inductive exn : Type :=
  | ResourcePurged
  | ResourceNotFoundExcpetion (msg : string)
  | IgnoreResourceException
  | KeyError (key : string)
  | ValueError (msg : string)
  | AttributeError (name : string)
  | PyException (msg : string).

Inductive result (A : Type) : Type :=
  | Ok (a : A)
  | Raise (e : exn).
Arguments Ok {A} a.
Arguments Raise {A} e.

(** State-and-exception monad: an exception keeps the effects performed
    before it was raised, as in Python. *)
Definition M (S A : Type) : Type := S -> result A * S.

Definition ret {S A} (a : A) : M S A := fun s => (Ok a, s).
Definition raise {S A} (e : exn) : M S A := fun s => (Raise e, s).
Definition bind {S A B} (m : M S A) (f : A -> M S B) : M S B :=
  fun s => match m s with
           | (Ok a, s') => f a s'
           | (Raise e, s') => (Raise e, s')
           end.
Definition when {S} (b : bool) (m : M S unit) : M S unit :=
  if b then m else ret tt.

#[global] Instance M_ret {S} : MRet (M S) := fun A a => ret a.
#[global] Instance M_bind {S} : MBind (M S) := fun A B f m => bind m f.

(** [try: body except Exception: handler] *)
Definition try_except {A} (body : result A) (handler : exn -> result A) : result A :=
  match body with
  | Ok a => Ok a
  | Raise e => handler e
  end.

(** ** Python values that occur as attributes and in change-sets *)

Inductive pyval : Type :=
  | PNone
  | PBool (b : bool)
  | PInt (z : Z)
  | PStr (s : string)
  | PUnknown
  | PTuple (a b : pyval).

(** Truth value of [not v] negated: [None], [False], [0] and the empty
    string are false, every other value (the [Unknown] instance and
    tuples of two elements included) is true. *)
Definition truthy (v : pyval) : bool :=
  match v with
  | PNone => false
  | PBool b => b
  | PInt z => negb (z =? 0)%Z
  | PStr s => negb (String.eqb s "")
  | PUnknown => true
  | PTuple _ _ => true
  end.

(** ** Strings *)

(** [sep.join(l)] *)
Fixpoint join (sep : string) (l : list string) : string :=
  match l with
  | [] => ""
  | [x] => x
  | x :: l' => x ++ sep ++ join sep l'
  end.

(** ** Content assembler *)

Module Assembler.

(** A [std::Content] fragment: [sorting_key] is [None] when unset. *)
Record Content : Type := {
  sorting_key : option string;
  value : string
}.

(** The tuple appended to [sort_list] for one fragment. *)
Definition sort_tuple (c : Content) : string * string :=
  match sorting_key c with
  | None => (value c, value c)
  | Some k => (k, value c)
  end.

(** [list.sort(key=...)] is a stable sort that compares keys with [<]:
    an element is placed before the first element of the already sorted
    tail whose key is not smaller. *)
Section StableSort.
Context {A K : Type} (key : A -> K) (leb : K -> K -> bool).

Fixpoint insert_by (x : A) (l : list A) : list A :=
  match l with
  | [] => [x]
  | y :: l' => if leb (key x) (key y) then x :: y :: l'
               else y :: insert_by x l'
  end.

Fixpoint sort_by (l : list A) : list A :=
  match l with
  | [] => []
  | x :: l' => insert_by x (sort_by l')
  end.
End StableSort.

Definition sorted_tuples (content_list : list Content) : list (string * string) :=
  sort_by fst String.leb (map sort_tuple content_list).

Definition generate_content (content_list : list Content) (seperator : string) : string :=
  join seperator (map snd (sorted_tuples content_list)) ++ seperator.

(** The [content] attribute of a [std::File]: a deferred value
    ([Unknown]), a string, or a [FileMarker] naming a local file. *)
Inductive content_value : Type :=
  | Unknown
  | Text (s : string)
  | FileMarker (filename : string).

Record FileEntity : Type := {
  content : content_value;
  prefix_content : list Content;
  suffix_content : list Content;
  content_seperator : string
}.

(** What [store_file] returns: the deferred value itself, or whatever
    [exporter.upload_file] returns for the assembled content. *)
Inductive stored (H : Type) : Type :=
  | StoredUnknown
  | Uploaded (h : H).
Arguments StoredUnknown {H}.
Arguments Uploaded {H} h.

Section StoreFile.
(** [open(filename, "rb").read()] and [exporter.upload_file]. *)
Context {H : Type} (read_file : string -> string) (upload_file : string -> H).

Definition store_file (obj : FileEntity) : stored H :=
  let sep := content_seperator obj in
  (* the statements after the [Unknown] and [FileMarker] tests *)
  let rest (content : string) : stored H :=
    let content :=
      if (0 <? List.length (prefix_content obj))%nat
      then generate_content (prefix_content obj) sep ++ sep ++ content
      else content in
    let content :=
      if (0 <? List.length (suffix_content obj))%nat
      then content ++ sep ++ generate_content (suffix_content obj) sep
      else content in
    Uploaded (upload_file content) in
  match content obj with
  | Unknown => StoredUnknown
  | FileMarker filename => rest (read_file filename)
  | Text s => rest s
  end.
End StoreFile.

End Assembler.

(** ** Resources *)

(** [std::File]: fields [path], [owner], [hash], [group],
    [permissions], [reload]. *)
Record File : Type := {
  path : string;
  owner : string;
  hash : string;
  group : string;
  permissions : Z;
  reload : bool
}.

(** [std::AgentConfig]: fields [agentname], [uri], [autostart].  The
    [autostart] attribute of the model object is evaluated on access:
    the evaluation yields a value or raises (an unset attribute). *)
Record AgentConfig : Type := {
  agentname : string;
  uri : string;
  autostart : result pyval
}.

Definition get_autostart (obj : AgentConfig) : result pyval :=
  match
    try_except
      (match autostart obj with
       | Ok v => if negb (truthy v) then Raise IgnoreResourceException else Ok tt
       | Raise e => Raise e
       end)
      (fun e => Raise IgnoreResourceException)
  with
  | Raise e => Raise e
  | Ok _ => autostart obj
  end.

(** ** The agent side: IO commands and handler context *)

(** Commands sent to [self._io], in the order of the calls. *)
Inductive io_call : Type :=
  | Put (path data : string)
  | Chmod (path mode : string)
  | Chown (path owner group : string)
  | Remove (path : string).

(** [ctx.set_created()], [ctx.set_updated()], [ctx.set_purged()]. *)
Inductive change_kind : Type := Created | Updated | Purged.

Record agent : Type := {
  io_log : list io_call;
  ctx_change : option change_kind
}.

Definition fresh_agent : agent := {| io_log := []; ctx_change := None |}.

(** A call [self._io.<command>(...)]: appended to the log. *)
Definition io (c : io_call) : M agent unit :=
  fun a => (Ok tt, {| io_log := io_log a ++ [c]; ctx_change := ctx_change a |}).

Definition ctx_set (k : change_kind) : M agent unit :=
  fun a => (Ok tt, {| io_log := io_log a; ctx_change := Some k |}).

(** ** PosixFileProvider *)

Module PosixFileProvider.
Section Handler.
(** [hashlib]'s SHA-1 hex digest, [self._io.file_exists] and
    [self.get_file] (the content store). *)
Context (sha1_hexdigest : string -> string)
        (file_exists : string -> bool)
        (get_file : string -> string).

Definition hash_file (content : string) : string := sha1_hexdigest content.

Definition create_resource (resource : File) : M agent unit :=
  if file_exists (path resource) then
    raise (PyException ("Cannot create file " ++ path resource
                        ++ ", because it already exists."))
  else
    let data := get_file (hash resource) in
    if negb (String.eqb (hash_file data) (hash resource)) then
      raise (PyException ("File hash was " ++ hash resource
                          ++ " expected " ++ hash_file data))
    else
      io (Put (path resource) data);;
      io (Chmod (path resource) (pretty (permissions resource)));;
      io (Chown (path resource) (owner resource) (group resource));;
      ctx_set Created.

Definition delete_resource (resource : File) : M agent unit :=
  if file_exists (path resource) then
    io (Remove (path resource));;
    ctx_set Purged
  else mret tt.

Definition has_key (k : string) (changes : gmap string pyval) : bool :=
  bool_decide (is_Some (changes !! k)).

Definition update_resource (changes : gmap string pyval) (resource : File)
  : M agent unit :=
  if negb (file_exists (path resource)) then
    raise (PyException ("Cannot update file " ++ path resource
                        ++ " because it doesn't exist"))
  else
    (if has_key "hash" changes then
       let data := get_file (hash resource) in
       if negb (String.eqb (hash_file data) (hash resource)) then
         raise (PyException ("File hash was " ++ hash resource
                             ++ " expected " ++ hash_file data))
       else io (Put (path resource) data)
     else mret tt);;
    when (has_key "permissions" changes)
         (io (Chmod (path resource) (pretty (permissions resource))));;
    when (has_key "owner" changes || has_key "group" changes)
         (io (Chown (path resource) (owner resource) (group resource)));;
    ctx_set Updated.
End Handler.
End PosixFileProvider.

(** ** Service handlers: availability probes *)

Module SystemdService.
(** The handler object: [_systemd_path] is [None] after [__init__]. *)
Record handler : Type := { _systemd_path : option string }.

Definition init : handler := {| _systemd_path := None |}.

Definition available (file_exists : string -> bool) (self : handler)
  : bool * handler :=
  let self' :=
    if file_exists "/usr/bin/systemctl" then
      {| _systemd_path := Some "/usr/bin/systemctl" |}
    else if file_exists "/bin/systemctl" then
      {| _systemd_path := Some "/bin/systemctl" |}
    else self in
  (bool_decide (is_Some (_systemd_path self')), self').
End SystemdService.

Module ServiceService.
Definition available (file_exists : string -> bool) : bool :=
  file_exists "/sbin/chkconfig" && file_exists "/sbin/service"
  && negb (file_exists "/usr/bin/systemctl").
End ServiceService.

(** ** AgentConfigHandler *)

Module AgentConfigHandler.
(** The remote setting [AUTOSTART_AGENT_MAP] of the environment and
    the ["map"] slot of the handler context.  The dict stored in the
    context is the object the handler later mutates, so the slot sees
    the mutation. *)
Record world : Type := {
  setting : gmap string string;
  ctx_map : option (gmap string string)
}.

Definition _get_map : M world (gmap string string) :=
  fun w => (Ok (setting w), w).

Definition _set_map (agent_config : gmap string string) : M world unit :=
  fun w => (Ok tt, {| setting := agent_config; ctx_map := ctx_map w |}).

Definition ctx_set_map (agent_config : gmap string string) : M world unit :=
  fun w => (Ok tt, {| setting := setting w; ctx_map := Some agent_config |}).

Definition ctx_get_map : M world (gmap string string) :=
  fun w => match ctx_map w with
           | Some m => (Ok m, w)
           | None => (Raise (KeyError "map"), w)
           end.

(** [read_resource] fills in [resource.uri]; the resource is returned. *)
Definition read_resource (resource : AgentConfig) : M world AgentConfig :=
  agent_config ← _get_map;
  ctx_set_map agent_config;;
  match agent_config !! agentname resource with
  | None => raise ResourcePurged
  | Some u => mret {| agentname := agentname resource; uri := u;
                      autostart := autostart resource |}
  end.

Definition create_resource (resource : AgentConfig) : M world unit :=
  agent_config ← ctx_get_map;
  let agent_config := <[agentname resource := uri resource]> agent_config in
  ctx_set_map agent_config;;
  _set_map agent_config.

Definition delete_resource (resource : AgentConfig) : M world unit :=
  agent_config ← ctx_get_map;
  match agent_config !! agentname resource with
  | None => raise (KeyError (agentname resource))
  | Some _ =>
    let agent_config := delete (agentname resource) agent_config in
    ctx_set_map agent_config;;
    _set_map agent_config
  end.

Definition update_resource (changes : gmap string pyval) (resource : AgentConfig)
  : M world unit :=
  agent_config ← ctx_get_map;
  let agent_config := <[agentname resource := uri resource]> agent_config in
  ctx_set_map agent_config;;
  _set_map agent_config.
End AgentConfigHandler.

(** ** Text scanning: [str] methods and the two regular expressions *)

Module Text.

(** Whitespace as [str.strip] and [\s] see it, below code point 256:
    tab to carriage return, the four separators 28-31, space, NEL and
    the no-break space. *)
Definition is_space (c : ascii) : bool :=
  let n := N_of_ascii c in
  ((9 <=? n) && (n <=? 13) || (28 <=? n) && (n <=? 32)
   || (n =? 133) || (n =? 160))%N.

Definition non_space (c : ascii) : bool := negb (is_space c).

(** [.] without [re.DOTALL]: anything but a newline. *)
Definition dot (c : ascii) : bool := negb (Ascii.eqb c "010"%char).

Fixpoint lstrip (s : string) : string :=
  match s with
  | String c s' => if is_space c then lstrip s' else s
  | EmptyString => EmptyString
  end.

Fixpoint rstrip (s : string) : string :=
  match s with
  | String c s' =>
    match rstrip s' with
    | EmptyString => if is_space c then EmptyString else String c EmptyString
    | r => String c r
    end
  | EmptyString => EmptyString
  end.

(** [s.strip()] *)
Definition strip (s : string) : string := rstrip (lstrip s).

(** [s.split(sep)] for a separator of one character: never empty. *)
Fixpoint split (sep : ascii) (s : string) : list string :=
  match s with
  | EmptyString => [EmptyString]
  | String c s' =>
    if Ascii.eqb c sep then EmptyString :: split sep s'
    else match split sep s' with
         | w :: ws => String c w :: ws
         | [] => [String c EmptyString]
         end
  end.

(** [s.startswith(p)] *)
Definition startswith (p s : string) : bool := String.prefix p s.

(** Backtracking matcher pieces.  A continuation receives the text
    matched by the piece and the rest of the subject, and answers
    [None] to make the piece try its next alternative. *)

(** [c+] for a character class [c], greedy: longest run first. *)
Fixpoint greedy_plus {A} (cls : ascii -> bool) (s : string)
         (k : string -> string -> option A) : option A :=
  match s with
  | String c s' =>
    if cls c then
      match greedy_plus cls s' (fun m r => k (String c m) r) with
      | Some x => Some x
      | None => k (String c EmptyString) s'
      end
    else None
  | EmptyString => None
  end.

(** A literal. *)
Fixpoint literal {A} (l : string) (s : string) (k : string -> option A)
  : option A :=
  match l, s with
  | EmptyString, _ => k s
  | String a l', String c s' => if Ascii.eqb a c then literal l' s' k else None
  | String _ _, EmptyString => None
  end.

(** [re.search(r"^(.+) :\s+(.+)", line).groups()]: the anchor admits
    position 0 only. *)
Definition match_field (line : string) : option (string * string) :=
  greedy_plus dot line (fun g1 r1 =>
    literal " :" r1 (fun r2 =>
      greedy_plus is_space r2 (fun _ r3 =>
        greedy_plus dot r3 (fun g2 _ => Some (g1, g2))))).

(** [([^\s]+)\s+([^\s]+)\s+([^\s]+)] tried at the start of [s]. *)
Definition columns_at (s : string) : option (string * string * string) :=
  greedy_plus non_space s (fun g1 r1 =>
    greedy_plus is_space r1 (fun _ r2 =>
      greedy_plus non_space r2 (fun g2 r3 =>
        greedy_plus is_space r3 (fun _ r4 =>
          greedy_plus non_space r4 (fun g3 _ => Some (g1, g2, g3)))))).

(** [re.search(...)]: the leftmost position with a match. *)
Fixpoint search_columns (s : string) : option (string * string * string) :=
  match columns_at s with
  | Some g => Some g
  | None =>
    match s with
    | String _ s' => search_columns s'
    | EmptyString => None
    end
  end.

End Text.

(** ** YumPackage *)

#[global] Instance result_ret : MRet result := fun A a => Ok a.
#[global] Instance result_bind : MBind result :=
  fun A B f r => match r with Ok a => f a | Raise e => Raise e end.

#[global] Instance pyval_eq_dec : EqDecision pyval.
Proof. solve_decision. Defined.

(** [d[k]] *)
Definition getitem {V} (d : gmap string V) (k : string) : result V :=
  match d !! k with
  | Some v => Ok v
  | None => Raise (KeyError k)
  end.

Module YumPackage.
Import Text.

(** [std::Package]: fields [name], [state], [reload]. *)
Record Package : Type := {
  name : string;
  state : string;
  reload : bool
}.

Fixpoint parse_loop (lines : list string) (props : gmap string string)
         (old_key : option string) : result (gmap string string) :=
  match lines with
  | [] => Ok props
  | line :: lines' =>
    if String.eqb (strip line) "" then parse_loop lines' props old_key
    else if String.eqb (strip line) "Available Packages" then Ok props
    else
      match match_field line with
      | None => parse_loop lines' props old_key
      | Some (key, value) =>
        let key := strip key in
        if String.eqb key "" then
          match old_key with
          | None => Raise (KeyError "None")
          | Some k =>
            v ← getitem props k;
            parse_loop lines' (<[k := v ++ " " ++ value]> props) old_key
          end
        else parse_loop lines' (<[key := value]> props) (Some key)
      end
  end.

Definition _parse_fields (lines : list string) : result (gmap string string) :=
  parse_loop lines ∅ None.

Section Handler.
(** [self._io.file_exists] and [self._io.run], which returns
    (stdout, stderr, return code). *)
Context (file_exists : string -> bool)
        (run : string -> list string -> string * string * Z).

Definition _run_yum (args : list string) : string * string * Z :=
  if file_exists "/usr/bin/dnf" then
    run "/usr/bin/dnf" (["-d"; "0"; "-e"; "0"; "-y"] ++ args)
  else
    run "/usr/bin/yum" (["-d"; "0"; "-e"; "0"; "-y"] ++ args).

Definition check_resource (resource : Package) : result (gmap string pyval) :=
  let yum_output := _run_yum ["info"; name resource] in
  let lines := split "010" (yum_output.1.1) in
  output ← _parse_fields (tail lines);
  match output !! "Repo" with
  | None => Ok {[ "state" := PStr "removed" ]}
  | Some repo =>
    let state :=
      if String.eqb repo "installed" || String.eqb repo "@System"
      then "installed" else "removed" in
    let yum_output := _run_yum ["check-update"; name resource] in
    let lines := split "010" (yum_output.1.1) in
    version ← getitem output "Version";
    release ← getitem output "Release";
    let data : gmap string pyval :=
      <["update" := PNone]>
        (<["release" := PStr release]>
          (<["version" := PStr version]> {[ "state" := PStr state ]})) in
    match lines with
    | [] => Ok data
    | line0 :: _ =>
      match search_columns line0 with
      | Some (_, version_str, _) =>
        if negb (startswith "Security:" line0) then
          match split "-" version_str with
          | [version; release] =>
            Ok (<["update" := PTuple (PStr version) (PStr release)]> data)
          | _ => Raise (ValueError "unpack")
          end
        else Ok data
      | None => Ok data
      end
    end
  end.

Definition list_changes (resource : Package) : result (gmap string pyval) :=
  state ← check_resource resource;
  let changes : gmap string pyval := ∅ in
  changes ←
    (if String.eqb (YumPackage.state resource) "removed" then
       cur ← getitem state "state";
       if negb (bool_decide (cur = PStr "removed"))
       then Ok (<["state" := PTuple cur (PStr (YumPackage.state resource))]> changes)
       else Ok changes
     else if String.eqb (YumPackage.state resource) "installed"
             || String.eqb (YumPackage.state resource) "latest" then
       cur ← getitem state "state";
       if negb (bool_decide (cur = PStr "installed"))
       then Ok (<["state" := PTuple cur (PStr "installed")]> changes)
       else Ok changes
     else Ok changes);
  match state !! "update" with
  | Some upd =>
    if negb (bool_decide (upd = PNone))
       && String.eqb (YumPackage.state resource) "latest" then
      version ← getitem state "version";
      release ← getitem state "release";
      Ok (<["version" := PTuple (PTuple version release) upd]> changes)
    else Ok changes
  | None => Ok changes
  end.
End Handler.
End YumPackage.

(** * Notions used in the statements, and sample inputs *)

(** The order [generate_content] sorts by: first components only. *)
Definition tuple_le (a b : string * string) : Prop :=
  String.leb a.1 b.1 = true.

(** Fragments that share a sorting key share their value. *)
Definition ties_agree (l : list Assembler.Content) : Prop :=
  forall a b, In a l -> In b l ->
    (Assembler.sort_tuple a).1 = (Assembler.sort_tuple b).1 ->
    Assembler.value a = Assembler.value b.

(** Sample fragments, file entities and resources. *)
Definition frag (k : option string) (v : string) : Assembler.Content :=
  {| Assembler.sorting_key := k; Assembler.value := v |}.

(** The payload [store_file] starts from, when it is not deferred. *)
Definition payload (read_file : string -> string) (obj : Assembler.FileEntity)
  : option string :=
  match Assembler.content obj with
  | Assembler.Unknown => None
  | Assembler.Text s => Some s
  | Assembler.FileMarker filename => Some (read_file filename)
  end.

(** The values of a fragment list in the order [generate_content] gives them. *)
Definition ordered_values (l : list Assembler.Content) : list string :=
  map snd (Assembler.sorted_tuples l).

(** The assembled content as the specification words it: one separator
    between the joined prefixes and the payload, none after the joined
    suffixes. *)
Definition spec_assembled (obj : Assembler.FileEntity) (p : string) : string :=
  let sep := Assembler.content_seperator obj in
  (match Assembler.prefix_content obj with
   | [] => ""
   | l => join sep (ordered_values l) ++ sep
   end)
  ++ p ++
  (match Assembler.suffix_content obj with
   | [] => ""
   | l => sep ++ join sep (ordered_values l)
   end).

(** The assembled content as the code builds it: [generate_content]
    already ends with a separator and [store_file] adds one more. *)
Definition code_assembled (obj : Assembler.FileEntity) (p : string) : string :=
  let sep := Assembler.content_seperator obj in
  (match Assembler.prefix_content obj with
   | [] => ""
   | l => join sep (ordered_values l) ++ sep ++ sep
   end)
  ++ p ++
  (match Assembler.suffix_content obj with
   | [] => ""
   | l => sep ++ join sep (ordered_values l) ++ sep
   end).

Definition sample_entity (pre suf : list Assembler.Content) : Assembler.FileEntity :=
  {| Assembler.content := Assembler.Text "x";
     Assembler.prefix_content := pre;
     Assembler.suffix_content := suf;
     Assembler.content_seperator := "," |}.

Definition agent_cfg (a : result pyval) : AgentConfig :=
  {| agentname := "worker1"; uri := "local:"; autostart := a |}.

(** The commands of a successful [create_resource], in order. *)
Definition create_calls (get_file : string -> string) (r : File) : list io_call :=
  [Put (path r) (get_file (hash r));
   Chmod (path r) (pretty (permissions r));
   Chown (path r) (owner r) (group r)].

(** The commands of a successful [update_resource], in order. *)
Definition update_calls (get_file : string -> string)
           (changes : gmap string pyval) (r : File) : list io_call :=
  (if decide (is_Some (changes !! "hash"))
   then [Put (path r) (get_file (hash r))] else [])
  ++ (if decide (is_Some (changes !! "permissions"))
      then [Chmod (path r) (pretty (permissions r))] else [])
  ++ (if decide (is_Some (changes !! "owner") \/ is_Some (changes !! "group"))
      then [Chown (path r) (owner r) (group r)] else []).

(** A toy digest and a content store holding one blob, to run the
    handler on concrete files. *)
Definition toy_digest (content : string) : string := "sha1:" ++ content.
Definition toy_store (h : string) : string :=
  if String.eqb h "sha1:hello" then "hello" else "corrupt".
Definition only (p : string) (q : string) : bool := String.eqb p q.

Definition file_a (h : string) : File :=
  {| path := "/tmp/a"; owner := "root"; hash := h; group := "wheel";
     permissions := 644; reload := false |}.

(** An entry of a change-set. *)
Definition change (cur des : pyval) : pyval := PTuple cur des.

(** A host filesystem given by the list of its existing paths. *)
Definition present (paths : list string) (p : string) : bool :=
  bool_decide (p ∈ paths).

(** Every character of [s] is in the class [cls]. *)
Fixpoint all_chars (cls : ascii -> bool) (s : string) : bool :=
  match s with
  | EmptyString => true
  | String c s' => cls c && all_chars cls s'
  end.

(** [c in s] *)
Fixpoint has_char (c : ascii) (s : string) : bool :=
  match s with
  | EmptyString => false
  | String d s' => Ascii.eqb c d || has_char c s'
  end.

(** The field started last is always present in [props]. *)
Definition started (props : gmap string string) (old_key : option string) : Prop :=
  forall k, old_key = Some k -> is_Some (props !! k).

(** The sample info block: one continuation line, then the marker. *)
Definition sample_info_lines : list string :=
  ["Name        : bash";
   "Description : The GNU Bourne Again shell";
   "            : interpreter.";
   "Available Packages";
   "Name        : zsh"].

(** What it means for a snapshot to satisfy the desired state of a
    package: the tracked state agrees and, for [latest], no update is
    on offer. *)
Definition converged (desired : string) (st : gmap string pyval) : Prop :=
  if decide (desired = "removed") then
    st !! "state" = Some (PStr "removed")
  else if decide (desired = "installed") then
    st !! "state" = Some (PStr "installed")
  else if decide (desired = "latest") then
    st !! "state" = Some (PStr "installed")
    /\ (st !! "update" = None \/ st !! "update" = Some PNone)
  else True.

Definition nl : string := String "010" "".

(** A host whose package tool answers the info query with [info] and
    the check-update query with [upd]. *)
Definition yum_host (info upd : list string)
  : string -> list string -> string * string * Z :=
  fun cmd args =>
    if String.eqb (nth 5 args "") "info" then (join nl info, "", 0%Z)
    else if String.eqb (nth 5 args "") "check-update" then (join nl upd, "", 100%Z)
    else ("", "", 1%Z).

Definition bash_info : list string :=
  ["Installed Packages";
   "Name        : bash";
   "Version     : 4.2.46";
   "Release     : 31.el7";
   "Repo        : installed";
   "Description : The GNU Bourne Again shell";
   "            : interpreter.";
   ""].

Definition bash (desired : string) : YumPackage.Package :=
  {| YumPackage.name := "bash"; YumPackage.state := desired;
     YumPackage.reload := false |}.

Definition no_dnf (p : string) : bool := false.

(** The version column split at its first dash, as the specification
    words it. *)
Fixpoint split_first_dash (s : string) : option (string * string) :=
  match s with
  | EmptyString => None
  | String c s' =>
    if Ascii.eqb c "-" then Some (EmptyString, s')
    else match split_first_dash s' with
         | Some (v, r) => Some (String c v, r)
         | None => None
         end
  end.

(** Runs a handler body of the monad [M] on an explicit state. *)
Ltac run_M :=
  unfold mbind, M_bind, bind, mret, M_ret, ret, raise, when, io, ctx_set; cbn.

(** * Further handlers *)

(** ** Commands run through [self._io.run] *)

(** One call [self._io.run(cmd, args)]; [cmd] is [None] where the
    handler passes an attribute that is still [None]. *)
Record run_call : Type := {
  cmd : option string;
  cmd_args : list string
}.

(** The calls made so far and the change flag of the handler context. *)
Record shell : Type := {
  calls : list run_call;
  shell_change : option change_kind
}.

Definition fresh_shell : shell := {| calls := []; shell_change := None |}.

(** [self._io.run(cmd, args)]: the host answers (stdout, stderr, return
    code), given the calls made before. *)
Definition run (respond : list run_call -> run_call -> string * string * Z)
           (c : option string) (args : list string)
  : M shell (string * string * Z) :=
  fun s =>
    let call := {| cmd := c; cmd_args := args |} in
    (Ok (respond (calls s) call),
     {| calls := calls s ++ [call]; shell_change := shell_change s |}).

Definition shell_set (k : change_kind) : M shell unit :=
  fun s => (Ok tt, {| calls := calls s; shell_change := Some k |}).

(** A value or an exception of a pure computation, inside [M]. *)
Definition lift {S A} (r : result A) : M S A := fun s => (r, s).

(** [needle in hay], also [re.search] of a pattern without special
    characters. *)
Fixpoint contains (needle hay : string) : bool :=
  match hay with
  | EmptyString => String.prefix needle EmptyString
  | String _ hay' => String.prefix needle hay || contains needle hay'
  end.

(** ** Service handlers: check and apply *)

Module Services.

(** [std::Service]: fields [onboot], [state], [name], [reload]. *)
Record Service : Type := {
  onboot : bool;
  state : string;
  name : string;
  reload : bool
}.

Module Systemd.
Section Handler.
Context (respond : list run_call -> run_call -> string * string * Z).

Definition check_resource (self : SystemdService.handler) (resource : Service)
  : M shell Service :=
  let path := SystemdService._systemd_path self in
  out ← run respond path ["status"; name resource ++ ".service"];
  if contains "Loaded: error" out.1.1 then
    raise (ResourceNotFoundExcpetion
             ("The " ++ name resource ++ " service does not exist"))
  else
    active ← run respond path ["is-active"; name resource ++ ".service"];
    enabled ← run respond path ["is-enabled"; name resource ++ ".service"];
    mret {| onboot := (enabled.2 =? 0)%Z;
            state := if (active.2 =? 0)%Z then "running" else "stopped";
            name := name resource;
            reload := reload resource |}.

Definition can_reload : bool := true.

Definition do_reload (self : SystemdService.handler) (resource : Service)
  : M shell unit :=
  run respond (SystemdService._systemd_path self)
      ["reload-or-restart"; name resource ++ ".service"];;
  mret tt.

Definition do_changes (self : SystemdService.handler) (resource : Service)
           (changes : gmap string (gmap string pyval)) : M shell unit :=
  let path := SystemdService._systemd_path self in
  updated ←
    match changes !! "state" with
    | Some ch =>
      desired ← lift (getitem ch "desired");
      let action :=
        if bool_decide (desired = PStr "stopped") then "stop" else "start" in
      result ← run respond path [action; name resource ++ ".service"];
      if String.prefix "Failed" result.1.2 then
        raise (PyException ("Unable to " ++ action ++ " " ++ name resource
                            ++ ": " ++ result.1.2))
      else mret true
    | None => mret false
    end;
  updated ←
    match changes !! "onboot" with
    | Some ch =>
      desired ← lift (getitem ch "desired");
      let action := if negb (truthy desired) then "disable" else "enable" in
      result ← run respond path [action; name resource ++ ".service"];
      if String.prefix "Failed" result.1.2 then
        raise (PyException ("Unable to " ++ action ++ " " ++ name resource
                            ++ ": " ++ result.1.2))
      else mret true
    | None => mret updated
    end;
  when updated (shell_set Updated).
End Handler.
End Systemd.

Module Redhat.
Section Handler.
Context (respond : list run_call -> run_call -> string * string * Z).

Definition check_resource (resource : Service) : M shell Service :=
  out ← run respond (Some "/sbin/chkconfig") ["--list"; name resource];
  if contains "error reading information on service" out.1.1 then
    raise (ResourceNotFoundExcpetion
             ("The " ++ name resource ++ " service does not exist"))
  else
    raw_enabled ← run respond (Some "/sbin/chkconfig") ["--list"; name resource];
    status ← run respond (Some "/sbin/service") [name resource; "status"];
    mret {| onboot := contains ":on" raw_enabled.1.1;
            state := if (status.2 =? 0)%Z then "running" else "stopped";
            name := name resource;
            reload := reload resource |}.

Definition can_reload : bool := true.

(** A failed reload is only logged. *)
Definition do_reload (resource : Service) : M shell unit :=
  run respond (Some "/sbin/service") [name resource; "reload"];;
  mret tt.

Definition do_changes (resource : Service)
           (changes : gmap string (gmap string pyval)) : M shell unit :=
  updated ←
    match changes !! "state" with
    | Some ch =>
      desired ← lift (getitem ch "desired");
      let action :=
        if bool_decide (desired = PStr "stopped") then "stop" else "start" in
      result ← run respond (Some "/sbin/service") [name resource; action];
      if String.prefix "Failed" result.1.2 then
        raise (PyException ("Unable to " ++ action ++ " " ++ name resource
                            ++ ": " ++ result.1.2))
      else mret true
    | None => mret false
    end;
  updated ←
    match changes !! "onboot" with
    | Some ch =>
      desired ← lift (getitem ch "desired");
      let action := if negb (truthy desired) then "off" else "on" in
      result ← run respond (Some "/sbin/chkconfig") [name resource; action];
      if String.prefix "Failed" result.1.2 then
        raise (PyException ("Unable to " ++ action ++ " " ++ name resource
                            ++ ": " ++ result.1.2))
      else mret true
    | None => mret updated
    end;
  when updated (shell_set Updated).
End Handler.
End Redhat.

End Services.

(** ** YumPackage: availability and apply *)

Module YumApply.

Definition available (file_exists : string -> bool) : bool :=
  (file_exists "/usr/bin/rpm" || file_exists "/bin/rpm")
  && (file_exists "/usr/bin/yum" || file_exists "/usr/bin/dnf").

(** [v[1]]: the second component of a tuple, the second character of a
    string; other values are not subscriptable. *)
Definition item1 (v : pyval) : result pyval :=
  match v with
  | PTuple _ b => Ok b
  | PStr s =>
    match String.get 1 s with
    | Some c => Ok (PStr (String c EmptyString))
    | None => Raise (PyException "IndexError")
    end
  | _ => Raise (PyException "TypeError")
  end.

Section Handler.
Context (file_exists : string -> bool)
        (respond : list run_call -> run_call -> string * string * Z).

Definition _run_yum (args : list string) : M shell (string * string * Z) :=
  if file_exists "/usr/bin/dnf" then
    run respond (Some "/usr/bin/dnf") (["-d"; "0"; "-e"; "0"; "-y"] ++ args)
  else
    run respond (Some "/usr/bin/yum") (["-d"; "0"; "-e"; "0"; "-y"] ++ args).

Definition _result (output : string * string * Z) : M shell unit :=
  let stdout := Text.strip output.1.1 in
  let error_msg := Text.strip output.1.2 in
  if negb (output.2 =? 0)%Z then
    raise (PyException ("Yum failed: stdout:" ++ stdout ++ " errout: " ++ error_msg))
  else mret tt.

Definition do_changes (resource : YumPackage.Package)
           (changes : gmap string pyval) : M shell unit :=
  match changes !! "state" with
  | Some ch =>
    target ← lift (item1 ch);
    if bool_decide (target = PStr "removed") then
      out ← _run_yum ["remove"; YumPackage.name resource];
      _result out;;
      shell_set Purged
    else if bool_decide (target = PStr "installed") then
      out ← _run_yum ["install"; YumPackage.name resource];
      _result out;;
      out ← _run_yum ["update"; YumPackage.name resource];
      _result out;;
      shell_set Created
    else mret tt
  | None =>
    match changes !! "version" with
    | Some _ =>
      out ← _run_yum ["update"; YumPackage.name resource];
      _result out;;
      shell_set Updated
    | None => mret tt
    end
  end.
End Handler.
End YumApply.

(** ** Reading files and directories; the directory handler *)

(** Commands of the file and directory handlers beyond [io_call]:
    [self._io.mkdir], [self._io.rmdir] and [self.upload_file]. *)
Inductive fs_call : Type :=
  | Mkdir (path : string)
  | Rmdir (path : string)
  | Upload (hash content : pyval)
  | Basic (c : io_call).

Record fs_agent : Type := {
  fs_log : list fs_call;
  fs_change : option change_kind
}.

Definition fresh_fs_agent : fs_agent := {| fs_log := []; fs_change := None |}.

Definition fs (c : fs_call) : M fs_agent unit :=
  fun a => (Ok tt, {| fs_log := fs_log a ++ [c]; fs_change := fs_change a |}).

Definition fs_set (k : change_kind) : M fs_agent unit :=
  fun a => (Ok tt, {| fs_log := fs_log a; fs_change := Some k |}).

(** [read_resource] writes attributes by name, so the resource it works
    on is kept as its attribute dictionary. *)
Definition getattr (obj : gmap string pyval) (attr : string) : result pyval :=
  match obj !! attr with
  | Some v => Ok v
  | None => Raise (AttributeError attr)
  end.

(** [for key, value in d.items(): setattr(obj, key, value)] *)
Definition setattrs (d obj : gmap string pyval) : gmap string pyval :=
  map_fold (fun key value o => <[key := value]> o) obj d.

Module PosixFileRead.
Section Handler.
(** [self._io.file_exists], [self._io.hash_file], [self._io.read_binary],
    [self._io.file_stat] and [self.stat_file] (is the hash in the
    content store). *)
Context (file_exists : pyval -> bool)
        (io_hash_file : pyval -> pyval)
        (read_binary : pyval -> pyval)
        (file_stat : pyval -> gmap string pyval)
        (stat_file : pyval -> bool).

Definition read_resource (resource : gmap string pyval)
  : M fs_agent (gmap string pyval) :=
  path ← lift (getattr resource "path");
  if negb (file_exists path) then raise ResourcePurged
  else
    let resource := <["hash" := io_hash_file path]> resource in
    path ← lift (getattr resource "path");
    let content := read_binary path in
    hash ← lift (getattr resource "hash");
    (if negb (stat_file hash) then fs (Upload hash content) else mret tt);;
    path ← lift (getattr resource "path");
    mret (setattrs (file_stat path) resource).
End Handler.
End PosixFileRead.

Module DirectoryHandler.

(** [std::Directory]: fields [path], [owner], [group], [permissions],
    [reload]. *)
Record Directory : Type := {
  path : string;
  owner : string;
  group : string;
  permissions : Z;
  reload : bool
}.

Definition read_resource (file_exists : pyval -> bool)
           (file_stat : pyval -> gmap string pyval)
           (resource : gmap string pyval) : result (gmap string pyval) :=
  path ← getattr resource "path";
  if negb (file_exists path) then Raise ResourcePurged
  else
    path ← getattr resource "path";
    Ok (setattrs (file_stat path) resource).

Definition create_resource (resource : Directory) : M fs_agent unit :=
  fs (Mkdir (path resource));;
  let mode := pretty (permissions resource) in
  fs (Basic (Chmod (path resource) mode));;
  fs (Basic (Chown (path resource) (owner resource) (group resource)));;
  fs_set Created.

Definition delete_resource (resource : Directory) : M fs_agent unit :=
  fs (Rmdir (path resource));;
  fs_set Purged.

Definition update_resource (changes : gmap string pyval) (resource : Directory)
  : M fs_agent unit :=
  (if bool_decide (is_Some (changes !! "permissions")) then
     let mode := pretty (permissions resource) in
     fs (Basic (Chmod (path resource) mode))
   else mret tt);;
  (if bool_decide (is_Some (changes !! "owner"))
      || bool_decide (is_Some (changes !! "group")) then
     fs (Basic (Chown (path resource) (owner resource) (group resource)))
   else mret tt);;
  fs_set Updated.
End DirectoryHandler.

(** ** SymlinkProvider *)

Module SymlinkProvider.

(** [std::Symlink]: fields [source], [target], [reload]. *)
Record Symlink : Type := {
  source : string;
  target : string;
  reload : bool
}.

Definition available (file_exists : string -> bool) : bool :=
  file_exists "/usr/bin/ln" || file_exists "/bin/ln".

(** The host filesystem [W] as [self._io] presents it: three queries,
    and two commands that return or raise and leave a filesystem. *)
Class LinkIO (W : Type) : Type := {
  file_exists : string -> W -> bool;
  is_symlink : string -> W -> bool;
  readlink : string -> W -> string;
  symlink : string -> string -> W -> result unit * W;
  remove : string -> W -> result unit * W
}.

(** The filesystem and the change flag of the handler context. *)
Record link_agent (W : Type) : Type := {
  world : W;
  link_change : option change_kind
}.
Arguments world {W} _.
Arguments link_change {W} _.

Section Handler.
Context {W : Type} `{LinkIO W}.

(** A command of [self._io]. *)
Definition command (c : W -> result unit * W) : M (link_agent W) unit :=
  fun a => ((c (world a)).1,
            {| world := (c (world a)).2; link_change := link_change a |}).

Definition query {A} (q : W -> A) : M (link_agent W) A :=
  fun a => (Ok (q (world a)), a).

Definition link_set (k : change_kind) : M (link_agent W) unit :=
  fun a => (Ok tt, {| world := world a; link_change := Some k |}).

(** The message of the conflict names the resource; it is left out. *)
Definition read_resource (resource : Symlink) : M (link_agent W) Symlink :=
  present ← query (file_exists (target resource));
  if negb present then raise ResourcePurged
  else
    link ← query (is_symlink (target resource));
    if negb link then
      raise (PyException "The target of resource already exists but is not a symlink.")
    else
      src ← query (readlink (target resource));
      mret {| source := src; target := target resource;
              reload := reload resource |}.

Definition create_resource (resource : Symlink) : M (link_agent W) unit :=
  command (symlink (source resource) (target resource));;
  link_set Created.

Definition delete_resource (resource : Symlink) : M (link_agent W) unit :=
  command (remove (target resource));;
  link_set Purged.

Definition update_resource (changes : gmap string pyval) (resource : Symlink)
  : M (link_agent W) unit :=
  command (remove (target resource));;
  command (symlink (source resource) (target resource));;
  link_set Updated.
End Handler.
End SymlinkProvider.

(** Runs the handlers of [AgentConfigHandler] on an explicit world. *)
Ltac run_world :=
  unfold AgentConfigHandler.create_resource, AgentConfigHandler.update_resource,
    AgentConfigHandler.delete_resource, AgentConfigHandler.read_resource,
    AgentConfigHandler.ctx_get_map, AgentConfigHandler.ctx_set_map,
    AgentConfigHandler._get_map, AgentConfigHandler._set_map;
  run_M.

(** Runs a handler body that calls [run] on an explicit state. *)
Ltac run_shell :=
  unfold mbind, M_bind, bind, mret, M_ret, ret, raise, when, lift, run,
    shell_set; cbn.

(** ** Notions used in the further statements *)

(** The call [_run_yum] makes for [args]. *)
Definition yum_call (file_exists : string -> bool) (args : list string) : run_call :=
  {| cmd := Some (if file_exists "/usr/bin/dnf" then "/usr/bin/dnf"
                  else "/usr/bin/yum");
     cmd_args := ["-d"; "0"; "-e"; "0"; "-y"] ++ args |}.

(** The [systemctl] verbs and the [service]/[chkconfig] words chosen
    for a desired state and a desired boot flag. *)
Definition state_action (desired : pyval) : string :=
  if bool_decide (desired = PStr "stopped") then "stop" else "start".

Definition systemd_call (self : SystemdService.handler) (verb unit_name : string)
  : run_call :=
  {| cmd := SystemdService._systemd_path self;
     cmd_args := [verb; unit_name ++ ".service"] |}.

Definition service_call (unit_name word : string) : run_call :=
  {| cmd := Some "/sbin/service"; cmd_args := [unit_name; word] |}.

Definition chkconfig_call (unit_name word : string) : run_call :=
  {| cmd := Some "/sbin/chkconfig"; cmd_args := [unit_name; word] |}.

(** A host that answers every command with the same output. *)
Definition always (out : string * string * Z)
  : list run_call -> run_call -> string * string * Z :=
  fun _ _ => out.

(** A host on which the commands whose arguments contain [word] fail
    with [out], all others succeed silently. *)
Definition failing_on (word : string) (out : string * string * Z)
  : list run_call -> run_call -> string * string * Z :=
  fun _ c => if bool_decide (word ∈ cmd_args c) then out else ("", "", 0%Z).

Definition sshd (boot : bool) (st : string) : Services.Service :=
  {| Services.onboot := boot; Services.state := st;
     Services.name := "sshd"; Services.reload := false |}.

Definition desired (v : pyval) : gmap string pyval := {[ "desired" := v ]}.

(** Runs a handler body that logs [fs_call]s on an explicit state. *)
Ltac run_fs :=
  unfold mbind, M_bind, bind, mret, M_ret, ret, raise, when, lift, fs, fs_set;
  cbn.

(** A directory with the attributes of a file resource. *)
Definition as_directory (r : File) : DirectoryHandler.Directory :=
  {| DirectoryHandler.path := path r;
     DirectoryHandler.owner := owner r;
     DirectoryHandler.group := group r;
     DirectoryHandler.permissions := permissions r;
     DirectoryHandler.reload := reload r |}.

(** What a filesystem must do for a link to be read back: [symlink] on
    a free path succeeds and leaves a link to the source there;
    [remove] on an existing path succeeds and frees it. *)
Definition link_laws (W : Type) `{SymlinkProvider.LinkIO W} : Prop :=
  (forall s t w,
     SymlinkProvider.file_exists t w = false ->
     exists w', SymlinkProvider.symlink s t w = (Ok tt, w')
                /\ SymlinkProvider.file_exists t w' = true
                /\ SymlinkProvider.is_symlink t w' = true
                /\ SymlinkProvider.readlink t w' = s)
  /\ (forall t w,
        SymlinkProvider.file_exists t w = true ->
        exists w', SymlinkProvider.remove t w = (Ok tt, w')
                   /\ SymlinkProvider.file_exists t w' = false).

(** A small filesystem: each existing path is a link to a source
    ([Some]) or something else ([None]). *)
#[global] Instance toy_links : SymlinkProvider.LinkIO (gmap string (option string)) := {|
  SymlinkProvider.file_exists t w := bool_decide (is_Some (w !! t));
  SymlinkProvider.is_symlink t w :=
    match w !! t with Some (Some _) => true | _ => false end;
  SymlinkProvider.readlink t w :=
    match w !! t with Some (Some s) => s | _ => "" end;
  SymlinkProvider.symlink s t w :=
    match w !! t with
    | Some _ => (Raise (PyException "FileExistsError"), w)
    | None => (Ok tt, <[t := Some s]> w)
    end;
  SymlinkProvider.remove t w :=
    match w !! t with
    | Some _ => (Ok tt, delete t w)
    | None => (Raise (PyException "FileNotFoundError"), w)
    end
|}.

Definition link (s t : string) : SymlinkProvider.Symlink :=
  {| SymlinkProvider.source := s; SymlinkProvider.target := t;
     SymlinkProvider.reload := false |}.

Definition on_world {W} (w : W) : SymlinkProvider.link_agent W :=
  {| SymlinkProvider.world := w; SymlinkProvider.link_change := None |}.

(** Runs the handlers of [SymlinkProvider] on an explicit state. *)
Ltac run_link :=
  unfold SymlinkProvider.create_resource, SymlinkProvider.update_resource,
    SymlinkProvider.delete_resource, SymlinkProvider.read_resource,
    SymlinkProvider.command, SymlinkProvider.query, SymlinkProvider.link_set;
  unfold mbind, M_bind, bind, mret, M_ret, ret, raise; cbn.

(** * Properties *)

(** ** Order on strings *)

Lemma ascii_compare_N (a b : ascii) :
  Ascii.compare a b = N.compare (N_of_ascii a) (N_of_ascii b).
Proof. reflexivity. Qed.

Lemma string_compare_refl (s : string) : String.compare s s = Eq.
Proof.
  induction s as [|c s IH]; simpl; [reflexivity|].
  rewrite ascii_compare_N, N.compare_refl. exact IH.
Qed.

Lemma string_leb_refl (s : string) : String.leb s s = true.
Proof. unfold String.leb. now rewrite string_compare_refl. Qed.

Lemma string_compare_trans_le (a b c : string) :
  String.compare a b <> Gt -> String.compare b c <> Gt ->
  String.compare a c <> Gt.
Proof.
  revert b c. induction a as [|x a IH]; intros [|y b] [|z c]; simpl;
    try congruence.
  rewrite !ascii_compare_N.
  destruct (N.compare_spec (N_of_ascii x) (N_of_ascii y)) as [Hxy|Hxy|Hxy];
    destruct (N.compare_spec (N_of_ascii y) (N_of_ascii z)) as [Hyz|Hyz|Hyz];
    try congruence; intros Hab Hbc.
  - rewrite Hxy, Hyz, N.compare_refl. now apply (IH b c).
  - rewrite Hxy. now apply N.compare_lt_iff in Hyz as ->.
  - rewrite <- Hyz. now apply N.compare_lt_iff in Hxy as ->.
  - assert (N_of_ascii x < N_of_ascii z)%N as Hxz by lia.
    now apply N.compare_lt_iff in Hxz as ->.
Qed.

Lemma string_leb_trans (a b c : string) :
  String.leb a b = true -> String.leb b c = true -> String.leb a c = true.
Proof.
  unfold String.leb. intros Hab Hbc.
  pose proof (string_compare_trans_le a b c) as H.
  destruct (String.compare a b), (String.compare b c), (String.compare a c);
    try reflexivity; try discriminate; exfalso; apply H; congruence.
Qed.

(** ** The stable sort *)

Section StableSortFacts.
Context {A K : Type} (key : A -> K) (leb : K -> K -> bool).
Hypothesis leb_total : forall a b, leb a b = true \/ leb b a = true.
Hypothesis leb_trans : forall a b c,
  leb a b = true -> leb b c = true -> leb a c = true.

Let le_key (x y : A) : Prop := leb (key x) (key y) = true.

Lemma insert_by_perm (x : A) (l : list A) :
  Permutation (Assembler.insert_by key leb x l) (x :: l).
Proof.
  induction l as [|y l IH]; simpl; [reflexivity|].
  destruct (leb (key x) (key y)); [reflexivity|].
  rewrite IH. apply perm_swap.
Qed.

Lemma sort_by_perm (l : list A) :
  Permutation (Assembler.sort_by key leb l) l.
Proof.
  induction l as [|x l IH]; simpl; [reflexivity|].
  rewrite insert_by_perm. now constructor.
Qed.

Lemma insert_by_sorted (x : A) (l : list A) :
  StronglySorted le_key l ->
  StronglySorted le_key (Assembler.insert_by key leb x l).
Proof.
  induction 1 as [|y l Hl IH Hy]; simpl.
  - repeat constructor.
  - destruct (leb (key x) (key y)) eqn:Hxy.
    + constructor; [now constructor|].
      constructor; [exact Hxy|].
      eapply Forall_impl; [exact Hy|].
      intros z Hz. unfold le_key in *. eauto.
    + constructor; [exact IH|].
      assert (le_key y x) as Hyx.
      { unfold le_key. destruct (leb_total (key x) (key y)); congruence. }
      eapply Permutation_Forall; [symmetry; apply insert_by_perm|].
      now constructor.
Qed.

Lemma sort_by_sorted (l : list A) :
  StronglySorted le_key (Assembler.sort_by key leb l).
Proof.
  induction l as [|x l IH]; simpl; [constructor|].
  now apply insert_by_sorted.
Qed.

(** Stability: the elements that share a key come out in input order. *)
Lemma insert_by_filter (P : K -> Prop) `{!forall k, Decision (P k)}
      (x : A) (l : list A) :
  (forall k k', P k -> leb k k' = false -> ~ P k') ->
  filter (fun y => P (key y)) (Assembler.insert_by key leb x l)
  = filter (fun y => P (key y)) (x :: l).
Proof.
  intros Hskip. induction l as [|y l IH]; simpl; [reflexivity|].
  destruct (leb (key x) (key y)) eqn:Hxy; [reflexivity|].
  rewrite (filter_cons _ y), IH, !filter_cons.
  destruct (decide (P (key x))) as [Hx|Hx];
    destruct (decide (P (key y))) as [Hy|Hy]; try reflexivity.
  exfalso. exact (Hskip _ _ Hx Hxy Hy).
Qed.

Lemma sort_by_stable `{!EqDecision K} (k : K) (l : list A) :
  filter (fun y => key y = k) (Assembler.sort_by key leb l)
  = filter (fun y => key y = k) l.
Proof.
  induction l as [|x l IH]; simpl; [reflexivity|].
  pose proof (insert_by_filter (fun k' => k' = k) x
                (Assembler.sort_by key leb l)) as Hins.
  cbv beta in Hins. rewrite Hins.
  - now rewrite !filter_cons, IH.
  - intros k1 k2 -> Hle ->.
    destruct (leb_total k k); congruence.
Qed.

(** Two sorted arrangements of the same elements agree as soon as
    elements with mutually ordered keys are equal. *)
Lemma sorted_perm_unique (l1 l2 : list A) :
  (forall a b, In a l1 -> In b l1 -> le_key a b -> le_key b a -> a = b) ->
  StronglySorted le_key l1 -> StronglySorted le_key l2 ->
  Permutation l1 l2 -> l1 = l2.
Proof.
  revert l2. induction l1 as [|a l1 IH]; intros l2 Hanti H1 H2 Hp.
  - now apply Permutation_nil in Hp.
  - destruct l2 as [|b l2].
    { symmetry in Hp. now apply Permutation_nil in Hp. }
    apply StronglySorted_inv in H1 as [H1 Ha].
    apply StronglySorted_inv in H2 as [H2 Hb].
    rewrite Forall_forall in Ha, Hb.
    assert (In b (a :: l1)) as Hb1
        by (eapply Permutation_in; [symmetry; exact Hp|now left]).
    assert (In a (b :: l2)) as Ha2
        by (eapply Permutation_in; [exact Hp|now left]).
    assert (a = b) as ->.
    { destruct Hb1 as [->|Hb1]; [reflexivity|].
      destruct Ha2 as [->|Ha2]; [reflexivity|].
      apply Hanti; [now left|now right| |].
      - apply Ha. now apply list_elem_of_In.
      - apply Hb. now apply list_elem_of_In. }
    f_equal. apply IH; auto.
    + intros x y Hx Hy. apply Hanti; now right.
    + now apply Permutation_cons_inv in Hp.
Qed.

Lemma sort_by_perm_invariant (l1 l2 : list A) :
  (forall a b, In a l1 -> In b l1 -> le_key a b -> le_key b a -> a = b) ->
  Permutation l1 l2 ->
  Assembler.sort_by key leb l2 = Assembler.sort_by key leb l1.
Proof.
  intros Hanti Hp. symmetry. apply sorted_perm_unique.
  - intros a b Ha Hb. apply Hanti;
      (eapply Permutation_in; [apply sort_by_perm|assumption]).
  - apply sort_by_sorted.
  - apply sort_by_sorted.
  - rewrite !sort_by_perm. exact Hp.
Qed.
End StableSortFacts.

(** ** Content assembler *)

Lemma string_app_assoc (a b c : string) : (a ++ b) ++ c = a ++ b ++ c.
Proof.
  induction a as [|x a IH]; [reflexivity|].
  change (String x ((a ++ b) ++ c) = String x (a ++ b ++ c)). now rewrite IH.
Qed.

Lemma string_app_nil_r (a : string) : a ++ "" = a.
Proof.
  induction a as [|x a IH]; [reflexivity|].
  change (String x (a ++ "") = String x a). now rewrite IH.
Qed.

Lemma sorted_tuples_perm_invariant (l l' : list Assembler.Content) :
  ties_agree l -> Permutation l l' ->
  Assembler.sorted_tuples l' = Assembler.sorted_tuples l.
Proof.
  intros Hties Hp. unfold Assembler.sorted_tuples.
  apply sort_by_perm_invariant.
  - apply String.leb_total.
  - apply string_leb_trans.
  - intros [ka va] [kb vb] Ha Hb Hab Hba. simpl in *.
    apply in_map_iff in Ha as (a & Ea & Ha).
    apply in_map_iff in Hb as (b & Eb & Hb).
    assert (ka = kb) as <- by (apply String.leb_antisym; assumption).
    f_equal. specialize (Hties a b Ha Hb).
    rewrite Ea, Eb in Hties. simpl in Hties.
    assert (va = (Assembler.sort_tuple a).2) as -> by now rewrite Ea.
    assert (vb = (Assembler.sort_tuple b).2) as -> by now rewrite Eb.
    unfold Assembler.sort_tuple in *.
    destruct (Assembler.sorting_key a), (Assembler.sorting_key b); simpl; auto.
  - now apply Permutation_map.
Qed.

(** C3, as amended.  [generate_content] orders the fragments ascending
    by sorting key alone, a fragment without a sorting key using its own
    value as key.  The sort is stable: fragments with equal sorting keys
    keep their input order, their values are not compared.  The output
    is the values in that order, joined by the separator and followed by
    one separator; it does not depend on the input order as long as
    fragments with equal sorting keys have equal values. *)
Theorem generate_content_sorted_by_key (l : list Assembler.Content) (sep : string) :
  (forall c, Assembler.sort_tuple c
             = (default (Assembler.value c) (Assembler.sorting_key c),
                Assembler.value c))
  /\ Assembler.generate_content l sep
     = join sep (map snd (Assembler.sorted_tuples l)) ++ sep
  /\ Permutation (Assembler.sorted_tuples l) (map Assembler.sort_tuple l)
  /\ StronglySorted tuple_le (Assembler.sorted_tuples l)
  /\ (forall k : string,
        filter (fun t : string * string => t.1 = k) (Assembler.sorted_tuples l)
        = filter (fun t : string * string => t.1 = k) (map Assembler.sort_tuple l))
  /\ (forall l', Permutation l l' -> ties_agree l ->
        Assembler.generate_content l' sep = Assembler.generate_content l sep).
Proof.
  repeat split.
  - intros [[k|] v]; reflexivity.
  - apply sort_by_perm.
  - apply (sort_by_sorted fst String.leb String.leb_total string_leb_trans).
  - intros k. apply (sort_by_stable fst String.leb String.leb_total).
  - intros l' Hp Hties. unfold Assembler.generate_content.
    now rewrite (sorted_tuples_perm_invariant l l').
Qed.

Lemma generate_content_sorted_by_key_witness :
  Assembler.generate_content [frag (Some "2") "b"; frag None "1"; frag (Some "0") "c"] ","
  = Assembler.generate_content [frag None "1"; frag (Some "0") "c"; frag (Some "2") "b"] ",".
Proof.
  apply (generate_content_sorted_by_key
           [frag None "1"; frag (Some "0") "c"; frag (Some "2") "b"] ",").
  - symmetry.
    exact (Permutation_cons_append [frag None "1"; frag (Some "0") "c"]
             (frag (Some "2") "b")).
  - intros a b Ha Hb. simpl in Ha, Hb.
    destruct Ha as [<-|[<-|[<-|[]]]], Hb as [<-|[<-|[<-|[]]]];
      simpl; intros E; try reflexivity; discriminate E.
Defined.

(** C3, as stated, fails: two fragments with the same sorting key come
    out in input order, so two orderings of one multiset of fragments
    give different outputs, and the values are not in ascending order. *)
Lemma generate_content_ties_keep_input_order :
  Permutation [frag (Some "k") "b"; frag (Some "k") "a"]
              [frag (Some "k") "a"; frag (Some "k") "b"]
  /\ Assembler.generate_content [frag (Some "k") "b"; frag (Some "k") "a"] "," = "b,a,"
  /\ Assembler.generate_content [frag (Some "k") "a"; frag (Some "k") "b"] "," = "a,b,"
  /\ Assembler.generate_content [frag (Some "k") "b"; frag (Some "k") "a"] ","
     <> Assembler.generate_content [frag (Some "k") "a"; frag (Some "k") "b"] ",".
Proof.
  split; [apply perm_swap|].
  split; [reflexivity|]. split; [reflexivity|]. discriminate.
Qed.

Lemma len_gt_0 {A} (l : list A) :
  (0 <? List.length l)%nat = match l with [] => false | _ :: _ => true end.
Proof. now destruct l. Qed.




(** ** [AgentConfig.get_autostart] *)

(** C10.  When the [autostart] attribute evaluates to a false value, or
    its evaluation raises, [get_autostart] raises
    [IgnoreResourceException]; when it evaluates to a true value, that
    value is returned; no other exception leaves [get_autostart]. *)
Theorem get_autostart_ignores (obj : AgentConfig) :
  (forall v, autostart obj = Ok v -> truthy v = false ->
     get_autostart obj = Raise IgnoreResourceException)
  /\ (forall e, autostart obj = Raise e ->
        get_autostart obj = Raise IgnoreResourceException)
  /\ (forall v, autostart obj = Ok v -> truthy v = true ->
        get_autostart obj = Ok v)
  /\ (forall e, get_autostart obj = Raise e -> e = IgnoreResourceException)
  /\ (forall v, get_autostart obj = Ok v ->
        autostart obj = Ok v /\ truthy v = true).
Proof.
  unfold get_autostart, try_except.
  destruct (autostart obj) as [v|e0] eqn:E.
  - destruct (truthy v) eqn:T; simpl; repeat split; intros; congruence.
  - simpl. repeat split; intros; congruence.
Qed.

Lemma get_autostart_ignores_witness :
  get_autostart (agent_cfg (Ok (PBool false))) = Raise IgnoreResourceException
  /\ get_autostart (agent_cfg (Ok PNone)) = Raise IgnoreResourceException
  /\ get_autostart (agent_cfg (Raise (AttributeError "autostart")))
     = Raise IgnoreResourceException
  /\ get_autostart (agent_cfg (Ok (PBool true))) = Ok (PBool true).
Proof.
  split; [|split; [|split]].
  - apply (get_autostart_ignores (agent_cfg (Ok (PBool false)))) with (v := PBool false);
      reflexivity.
  - apply (get_autostart_ignores (agent_cfg (Ok PNone))) with (v := PNone);
      reflexivity.
  - apply (get_autostart_ignores (agent_cfg (Raise (AttributeError "autostart"))))
      with (e := AttributeError "autostart"); reflexivity.
  - apply (get_autostart_ignores (agent_cfg (Ok (PBool true)))); reflexivity.
Defined.

(** ** [PosixFileProvider] *)

Section PosixFileFacts.
Context (sha1_hexdigest : string -> string)
        (file_exists : string -> bool)
        (get_file : string -> string).

Local Abbreviation create_resource :=
  (PosixFileProvider.create_resource sha1_hexdigest file_exists get_file).
Local Abbreviation update_resource :=
  (PosixFileProvider.update_resource sha1_hexdigest file_exists get_file).

(** C5.  [create_resource] raises without any IO command when the
    path exists; otherwise it raises without any IO command when the
    content fetched for the desired hash does not hash to it;
    otherwise it issues [put], [chmod], [chown] in that order and
    marks the resource created. *)
Theorem create_resource_verified (r : File) (a : agent) :
  (file_exists (path r) = true ->
     exists e, create_resource r a = (Raise e, a))
  /\ (file_exists (path r) = false ->
      sha1_hexdigest (get_file (hash r)) <> hash r ->
      exists e, create_resource r a = (Raise e, a))
  /\ (file_exists (path r) = false ->
      sha1_hexdigest (get_file (hash r)) = hash r ->
      create_resource r a
      = (Ok tt, {| io_log := io_log a ++ create_calls get_file r;
                   ctx_change := Some Created |})).
Proof.
  unfold PosixFileProvider.create_resource,
    PosixFileProvider.hash_file.
  split; [|split].
  - intros ->. eexists. reflexivity.
  - intros -> Hne. apply String.eqb_neq in Hne. rewrite Hne.
    eexists. reflexivity.
  - intros -> Heq. apply String.eqb_eq in Heq. rewrite Heq.
    destruct a as [log c]. unfold create_calls. run_M.
    now rewrite <- !app_assoc.
Qed.

Lemma update_calls_spec (changes : gmap string pyval) (r : File) (c : io_call) :
  In c (update_calls get_file changes r) <->
  (c = Put (path r) (get_file (hash r)) /\ is_Some (changes !! "hash"))
  \/ (c = Chmod (path r) (pretty (permissions r))
      /\ is_Some (changes !! "permissions"))
  \/ (c = Chown (path r) (owner r) (group r)
      /\ (is_Some (changes !! "owner") \/ is_Some (changes !! "group"))).
Proof.
  unfold update_calls. rewrite !in_app_iff.
  repeat case_decide; simpl; intuition congruence.
Qed.

(** C8.  [update_resource] raises without any IO command when the
    path does not exist.  Otherwise, when ["hash"] is in the
    change-set and the fetched content does not hash to the desired
    hash, it raises without any IO command.  Otherwise it succeeds,
    and its IO commands are exactly: [put] iff ["hash"] is in the
    change-set, [chmod] iff ["permissions"] is, [chown] iff
    ["owner"] or ["group"] is. *)
Theorem update_resource_frame (changes : gmap string pyval) (r : File) (a : agent) :
  (file_exists (path r) = false ->
     exists e, update_resource changes r a = (Raise e, a))
  /\ (file_exists (path r) = true ->
      is_Some (changes !! "hash") ->
      sha1_hexdigest (get_file (hash r)) <> hash r ->
      exists e, update_resource changes r a = (Raise e, a))
  /\ (file_exists (path r) = true ->
      (is_Some (changes !! "hash") ->
       sha1_hexdigest (get_file (hash r)) = hash r) ->
      exists calls,
        update_resource changes r a
        = (Ok tt, {| io_log := io_log a ++ calls; ctx_change := Some Updated |})
        /\ calls = update_calls get_file changes r
        /\ (In (Put (path r) (get_file (hash r))) calls
            <-> is_Some (changes !! "hash"))
        /\ (In (Chmod (path r) (pretty (permissions r))) calls
            <-> is_Some (changes !! "permissions"))
        /\ (In (Chown (path r) (owner r) (group r)) calls
            <-> is_Some (changes !! "owner") \/ is_Some (changes !! "group"))
        /\ (forall c, In c calls ->
              c = Put (path r) (get_file (hash r))
              \/ c = Chmod (path r) (pretty (permissions r))
              \/ c = Chown (path r) (owner r) (group r))).
Proof.
  unfold PosixFileProvider.update_resource,
    PosixFileProvider.hash_file, PosixFileProvider.has_key.
  split; [|split].
  - intros ->. eexists. reflexivity.
  - intros -> Hin Hne. apply String.eqb_neq in Hne.
    rewrite (bool_decide_eq_true_2 (is_Some (changes !! "hash")) Hin), Hne.
    eexists. reflexivity.
  - intros -> Hok. exists (update_calls get_file changes r).
    split; [|split; [reflexivity|]].
    + unfold update_calls. destruct a as [log c].
      rewrite <- bool_decide_or, !bool_decide_decide.
      destruct (decide (is_Some (changes !! "hash"))) as [Hh|Hh];
        [apply Hok, String.eqb_eq in Hh as ->|];
        destruct (decide (is_Some (changes !! "permissions")));
        destruct (decide (is_Some (changes !! "owner")
                          \/ is_Some (changes !! "group")));
        run_M; rewrite <- ?app_assoc, ?app_nil_r; reflexivity.
    + repeat split; try (rewrite update_calls_spec; intuition congruence).
      intros c Hc. apply update_calls_spec in Hc. tauto.
Qed.
End PosixFileFacts.

Lemma create_resource_verified_witness :
  (exists e, PosixFileProvider.create_resource toy_digest (only "/tmp/a") toy_store
               (file_a "sha1:hello") fresh_agent = (Raise e, fresh_agent))
  /\ (exists e, PosixFileProvider.create_resource toy_digest (only "/tmp/b") toy_store
                  (file_a "sha1:other") fresh_agent = (Raise e, fresh_agent))
  /\ PosixFileProvider.create_resource toy_digest (only "/tmp/b") toy_store
       (file_a "sha1:hello") fresh_agent
     = (Ok tt, {| io_log := [Put "/tmp/a" "hello"; Chmod "/tmp/a" "644";
                             Chown "/tmp/a" "root" "wheel"];
                  ctx_change := Some Created |}).
Proof.
  split; [|split].
  - apply (proj1 (create_resource_verified toy_digest (only "/tmp/a") toy_store
                    (file_a "sha1:hello") fresh_agent)). reflexivity.
  - apply (proj1 (proj2 (create_resource_verified toy_digest (only "/tmp/b")
                           toy_store (file_a "sha1:other") fresh_agent)));
      [reflexivity|discriminate].
  - apply (proj2 (proj2 (create_resource_verified toy_digest (only "/tmp/b")
                           toy_store (file_a "sha1:hello") fresh_agent)));
      reflexivity.
Defined.

Lemma update_resource_frame_witness :
  (exists e, PosixFileProvider.update_resource toy_digest (only "/tmp/b") toy_store
               {[ "hash" := change (PStr "sha1:old") (PStr "sha1:hello") ]}
               (file_a "sha1:hello") fresh_agent = (Raise e, fresh_agent))
  /\ (exists e, PosixFileProvider.update_resource toy_digest (only "/tmp/a") toy_store
                  {[ "hash" := change (PStr "sha1:old") (PStr "sha1:other") ]}
                  (file_a "sha1:other") fresh_agent = (Raise e, fresh_agent))
  /\ (exists calls,
        PosixFileProvider.update_resource toy_digest (only "/tmp/a") toy_store
          {[ "group" := change (PStr "root") (PStr "wheel") ]}
          (file_a "sha1:other") fresh_agent
        = (Ok tt, {| io_log := calls; ctx_change := Some Updated |})
        /\ calls = [Chown "/tmp/a" "root" "wheel"]).
Proof.
  split; [|split].
  - apply (proj1 (update_resource_frame toy_digest (only "/tmp/b") toy_store
             {[ "hash" := change (PStr "sha1:old") (PStr "sha1:hello") ]}
             (file_a "sha1:hello") fresh_agent)). reflexivity.
  - apply (proj1 (proj2 (update_resource_frame toy_digest (only "/tmp/a") toy_store
             {[ "hash" := change (PStr "sha1:old") (PStr "sha1:other") ]}
             (file_a "sha1:other") fresh_agent)));
      [reflexivity|vm_compute; eauto|discriminate].
  - destruct (proj2 (proj2 (update_resource_frame toy_digest (only "/tmp/a") toy_store
             {[ "group" := change (PStr "root") (PStr "wheel") ]}
             (file_a "sha1:other") fresh_agent)))
      as (calls & Hrun & Hcalls & _).
    + reflexivity.
    + vm_compute. intros [x Hx]. discriminate Hx.
    + exists calls. split; [exact Hrun|]. rewrite Hcalls. reflexivity.
Defined.

(** ** Service availability probes *)

(** Where [/usr/bin/systemctl] exists the two probes exclude each other. *)
Lemma probes_exclusive_usr_bin (file_exists : string -> bool)
      (self : SystemdService.handler) :
  file_exists "/usr/bin/systemctl" = true ->
  (SystemdService.available file_exists self).1 = true
  /\ ServiceService.available file_exists = false.
Proof.
  intros H. unfold SystemdService.available, ServiceService.available.
  rewrite H. split; [reflexivity|]. now rewrite andb_false_r.
Qed.

(** A fresh systemd handler is available exactly when one of the two
    [systemctl] paths exists. *)
Lemma systemd_available_iff (file_exists : string -> bool) :
  (SystemdService.available file_exists SystemdService.init).1 = true
  <-> file_exists "/usr/bin/systemctl" = true \/ file_exists "/bin/systemctl" = true.
Proof.
  unfold SystemdService.available, SystemdService.init.
  destruct (file_exists "/usr/bin/systemctl"), (file_exists "/bin/systemctl");
    simpl; intuition discriminate.
Qed.

(** C4, on the code: on a host with [/bin/systemctl], [/sbin/chkconfig]
    and [/sbin/service] but without [/usr/bin/systemctl], the systemd
    handler and the legacy handler both report themselves available;
    the legacy probe only looks for [/usr/bin/systemctl]. *)
Theorem service_probes_both_available :
  let file_exists := present ["/bin/systemctl"; "/sbin/chkconfig"; "/sbin/service"] in
  (SystemdService.available file_exists SystemdService.init).1 = true
  /\ ServiceService.available file_exists = true.
Proof. split; reflexivity. Qed.

(** ** [AgentConfigHandler] *)

(** C9.  After the read step has fetched the agent map [m] (whether the
    read ends normally or with [ResourcePurged]), the create step and
    the update step for a resource with agent name [n] and URI [u] both
    succeed and write back [m] with [n] mapped to [u]: the entry of [n]
    is [u] and every other entry of [m] is unchanged. *)
Theorem agent_map_write_back (m : gmap string string)
        (ctx0 : option (gmap string string)) (r0 r : AgentConfig)
        (changes : gmap string pyval) :
  let w1 := (AgentConfigHandler.read_resource r0
               {| AgentConfigHandler.setting := m;
                  AgentConfigHandler.ctx_map := ctx0 |}).2 in
  exists w2,
    AgentConfigHandler.create_resource r w1 = (Ok tt, w2)
    /\ AgentConfigHandler.update_resource changes r w1 = (Ok tt, w2)
    /\ AgentConfigHandler.setting w2 = <[agentname r := uri r]> m
    /\ AgentConfigHandler.setting w2 !! agentname r = Some (uri r)
    /\ (forall k, k <> agentname r ->
          AgentConfigHandler.setting w2 !! k = m !! k).
Proof.
  intros w1.
  assert (w1 = {| AgentConfigHandler.setting := m;
                  AgentConfigHandler.ctx_map := Some m |}) as ->.
  { unfold w1, AgentConfigHandler.read_resource. run_M.
    unfold AgentConfigHandler._get_map, AgentConfigHandler.ctx_set_map. cbn.
    destruct (m !! agentname r0); reflexivity. }
  exists {| AgentConfigHandler.setting := <[agentname r := uri r]> m;
            AgentConfigHandler.ctx_map := Some (<[agentname r := uri r]> m) |}.
  split; [reflexivity|]. split; [reflexivity|]. cbn.
  split; [reflexivity|]. split.
  - apply lookup_insert_eq.
  - intros k Hk. now apply lookup_insert_ne.
Qed.

Lemma agent_map_write_back_witness :
  let m : gmap string string := <["worker1" := "uri1"]> {[ "worker2" := "uri3" ]} in
  let r := {| agentname := "worker1"; uri := "uri2"; autostart := Ok (PBool true) |} in
  exists w2,
    AgentConfigHandler.update_resource ∅ r
      (AgentConfigHandler.read_resource r
         {| AgentConfigHandler.setting := m;
            AgentConfigHandler.ctx_map := None |}).2 = (Ok tt, w2)
    /\ AgentConfigHandler.setting w2 !! "worker1" = Some "uri2"
    /\ AgentConfigHandler.setting w2 !! "worker2" = Some "uri3".
Proof.
  intros m r.
  destruct (agent_map_write_back m None r r ∅) as (w2 & _ & Hu & _ & Hn & Hother).
  exists w2. split; [exact Hu|]. split; [exact Hn|].
  rewrite (Hother "worker2"); [reflexivity|discriminate].
Defined.

(** ** Text scanning *)

Lemma has_char_app (c : ascii) (a b : string) :
  has_char c (a ++ b) = has_char c a || has_char c b.
Proof.
  induction a as [|d a IH]; [reflexivity|].
  change (has_char c (String d (a ++ b))
          = has_char c (String d a) || has_char c b).
  simpl. now rewrite IH, orb_assoc.
Qed.

(** What a successful greedy run hands to its continuation: a
    non-empty run of the class, and the rest of the subject. *)
Lemma greedy_plus_inv {A} (cls : ascii -> bool) (s : string)
      (k : string -> string -> option A) (x : A) :
  Text.greedy_plus cls s k = Some x ->
  exists m r, s = m ++ r /\ m <> "" /\ all_chars cls m = true
              /\ k m r = Some x.
Proof.
  revert k. induction s as [|c s IH]; intros k; simpl; [discriminate|].
  destruct (cls c) eqn:Hc; [|discriminate].
  destruct (Text.greedy_plus cls s (fun m r => k (String c m) r)) as [y|] eqn:E.
  - intros [= ->]. apply IH in E as (m & r & -> & _ & Hm & Hk).
    exists (String c m), r. simpl. rewrite Hc, Hm.
    repeat split; [discriminate|exact Hk].
  - intros Hk. exists (String c ""), s. simpl. rewrite Hc.
    repeat split; [discriminate|exact Hk].
Qed.

Lemma literal_inv {A} (l s : string) (k : string -> option A) (x : A) :
  Text.literal l s k = Some x -> exists r, s = l ++ r /\ k r = Some x.
Proof.
  revert s. induction l as [|a l IH]; intros s; simpl.
  - intros Hk. now exists s.
  - destruct s as [|c s]; [discriminate|].
    destruct (Ascii.eqb_spec a c) as [->|]; [|discriminate].
    intros Hk. apply IH in Hk as (r & -> & Hk). now exists r.
Qed.

(** A line that matches the field pattern reads: key, [" :"],
    whitespace, value, and possibly more. *)
Lemma match_field_inv (line key value : string) :
  Text.match_field line = Some (key, value) ->
  exists ws tl, line = key ++ " :" ++ ws ++ value ++ tl
                /\ key <> "" /\ ws <> "" /\ value <> ""
                /\ all_chars Text.is_space ws = true
                /\ all_chars Text.dot key = true
                /\ all_chars Text.dot value = true.
Proof.
  unfold Text.match_field. intros H.
  apply greedy_plus_inv in H as (g1 & r1 & -> & Hg1 & Hd1 & H).
  apply literal_inv in H as (r2 & -> & H).
  apply greedy_plus_inv in H as (ws & r3 & -> & Hws & Hs & H).
  apply greedy_plus_inv in H as (g2 & tl & -> & Hg2 & Hd2 & H).
  injection H as <- <-. now exists ws, tl.
Qed.

(** A line in which the column pattern is found reads: anything, three
    runs of non-blank characters separated by whitespace, anything. *)
Lemma search_columns_inv (line c1 c2 c3 : string) :
  Text.search_columns line = Some (c1, c2, c3) ->
  exists pre w1 w2 tl,
    line = pre ++ c1 ++ w1 ++ c2 ++ w2 ++ c3 ++ tl
    /\ c1 <> "" /\ c2 <> "" /\ c3 <> "" /\ w1 <> "" /\ w2 <> ""
    /\ all_chars Text.non_space c1 = true
    /\ all_chars Text.non_space c2 = true
    /\ all_chars Text.non_space c3 = true
    /\ all_chars Text.is_space w1 = true
    /\ all_chars Text.is_space w2 = true.
Proof.
  induction line as [|c line IH]; simpl.
  - discriminate.
  - destruct (Text.columns_at (String c line)) as [g|] eqn:E.
    + intros [= ->]. unfold Text.columns_at in E.
      apply greedy_plus_inv in E as (g1 & r1 & -> & ? & ? & E).
      apply greedy_plus_inv in E as (w1 & r2 & -> & ? & ? & E).
      apply greedy_plus_inv in E as (g2 & r3 & -> & ? & ? & E).
      apply greedy_plus_inv in E as (w2 & r4 & -> & ? & ? & E).
      apply greedy_plus_inv in E as (g3 & tl & -> & ? & ? & E).
      injection E as <- <- <-.
      exists "", w1, w2, tl. repeat split; assumption.
    + intros H. apply IH in H as (pre & w1 & w2 & tl & -> & H).
      exists (String c pre), w1, w2, tl. split; [reflexivity|exact H].
Qed.

Lemma lstrip_keeps (c : ascii) (s : string) :
  Text.is_space c = false -> has_char c s = true ->
  has_char c (Text.lstrip s) = true.
Proof.
  intros Hc. induction s as [|d s IH]; simpl; [discriminate|].
  destruct (Text.is_space d) eqn:Hd; [|trivial].
  destruct (Ascii.eqb_spec c d) as [->|]; [congruence|]. exact IH.
Qed.

Lemma rstrip_keeps (c : ascii) (s : string) :
  Text.is_space c = false -> has_char c s = true ->
  has_char c (Text.rstrip s) = true.
Proof.
  intros Hc. induction s as [|d s IH]; simpl; [discriminate|].
  destruct (Ascii.eqb_spec c d) as [<-|Hne]; simpl.
  - intros _. destruct (Text.rstrip s); [rewrite Hc|]; simpl;
      now rewrite Ascii.eqb_refl.
  - intros Hs. specialize (IH Hs).
    destruct (Text.rstrip s); [discriminate IH|].
    simpl in *. now rewrite IH, orb_true_r.
Qed.

Lemma strip_keeps (c : ascii) (s : string) :
  Text.is_space c = false -> has_char c s = true ->
  has_char c (Text.strip s) = true.
Proof.
  intros Hc Hs. unfold Text.strip.
  now apply rstrip_keeps, lstrip_keeps.
Qed.

(** The field pattern on lines of the package tool.  The first group
    is greedy: the key runs up to the last [" :"] that is followed by
    whitespace and a value. *)
Example match_field_plain :
  Text.match_field "Name        : bash" = Some ("Name       ", "bash").
Proof. reflexivity. Qed.

Example match_field_continuation :
  Text.match_field "            : interpreter."
  = Some ("           ", "interpreter.").
Proof. reflexivity. Qed.

Example match_field_greedy :
  Text.match_field "Summary : a shell : sh" = Some ("Summary : a shell", "sh").
Proof. reflexivity. Qed.

Example match_field_no_value :
  Text.match_field "Name :" = None /\ Text.match_field "URL: x" = None.
Proof. split; reflexivity. Qed.

Example search_columns_update_line :
  Text.search_columns "bash.x86_64    4.2.46-34.el7    updates"
  = Some ("bash.x86_64", "4.2.46-34.el7", "updates").
Proof. reflexivity. Qed.

Example search_columns_two_columns :
  Text.search_columns "Obsoleting Packages" = None.
Proof. reflexivity. Qed.

(** A line that matches the field pattern is neither blank nor the
    marker line: it holds a colon. *)
Lemma match_field_colon (line key value : string) :
  Text.match_field line = Some (key, value) ->
  has_char ":" (Text.strip line) = true.
Proof.
  intros H. apply match_field_inv in H as (ws & tl & -> & _).
  apply strip_keeps; [reflexivity|].
  rewrite !has_char_app. simpl. now rewrite orb_true_r.
Qed.

(** ** [YumPackage._parse_fields] *)

Lemma parse_loop_marker (pre : list string) (line : string) (rest : list string)
      (props : gmap string string) (old_key : option string) :
  Text.strip line = "Available Packages" ->
  YumPackage.parse_loop (pre ++ line :: rest) props old_key
  = YumPackage.parse_loop pre props old_key.
Proof.
  intros Hm. revert props old_key.
  induction pre as [|l pre IH]; intros props old_key; simpl.
  - now rewrite Hm.
  - destruct (String.eqb (Text.strip l) ""); [apply IH|].
    destruct (String.eqb (Text.strip l) "Available Packages"); [reflexivity|].
    destruct (Text.match_field l) as [[key value]|]; [|apply IH].
    destruct (String.eqb (Text.strip key) ""); [|apply IH].
    destruct old_key as [k|]; [|reflexivity].
    destruct (getitem props k) as [v|e]; simpl; [apply IH|reflexivity].
Qed.


(** The loop raises only for a line with an empty key that comes before
    every field, and never once a field has been started. *)
Lemma parse_loop_total (lines : list string) (props : gmap string string)
      (old_key : option string) :
  started props old_key ->
  (exists m, YumPackage.parse_loop lines props old_key = Ok m)
  \/ (old_key = None
      /\ YumPackage.parse_loop lines props old_key = Raise (KeyError "None")).
Proof.
  revert props old_key.
  induction lines as [|l lines IH]; intros props old_key Hinv; simpl.
  - left. now exists props.
  - destruct (String.eqb (Text.strip l) ""); [now apply IH|].
    destruct (String.eqb (Text.strip l) "Available Packages");
      [left; now exists props|].
    destruct (Text.match_field l) as [[key value]|]; [|now apply IH].
    destruct (String.eqb (Text.strip key) "").
    + destruct old_key as [k|]; [|now right].
      destruct (Hinv k eq_refl) as [v Hv]. unfold getitem. rewrite Hv. simpl.
      destruct (IH (<[k := v ++ " " ++ value]> props) (Some k)) as [Hok|[Hn _]];
        [|now left|discriminate Hn].
      intros k' [= <-]. rewrite lookup_insert_eq. eauto.
    + destruct (IH (<[Text.strip key := value]> props) (Some (Text.strip key)))
        as [Hok|[Hn _]]; [|now left|discriminate Hn].
      intros k' [= <-]. rewrite lookup_insert_eq. eauto.
Qed.


(** The sample block of the specification: one continuation line, and
    the marker line cutting off what follows. *)
Example parse_fields_sample :
  exists props,
    YumPackage._parse_fields sample_info_lines = Ok props
    /\ props !! "Name" = Some "bash"
    /\ props !! "Description" = Some "The GNU Bourne Again shell interpreter.".
Proof. eexists. split; [reflexivity|]. split; reflexivity. Qed.

(** A continuation line before any field: [props[None]] raises. *)
Example parse_fields_orphan_continuation :
  YumPackage._parse_fields ["            : interpreter."] = Raise (KeyError "None").
Proof. reflexivity. Qed.

(** ** [str.split] *)

Lemma split_no_sep (sep : ascii) (s : string) :
  has_char sep s = false -> Text.split sep s = [s].
Proof.
  induction s as [|c s IH]; simpl; [reflexivity|].
  rewrite Ascii.eqb_sym.
  destruct (Ascii.eqb c sep); simpl; [discriminate|].
  intros H. now rewrite (IH H).
Qed.

Lemma split_app_sep (sep : ascii) (v r : string) :
  has_char sep v = false ->
  Text.split sep (v ++ String sep r) = v :: Text.split sep r.
Proof.
  induction v as [|c v IH]; intros Hv.
  - change (Text.split sep (String sep r) = "" :: Text.split sep r).
    simpl. now rewrite Ascii.eqb_refl.
  - change (Text.split sep (String c (v ++ String sep r))
            = String c v :: Text.split sep r).
    simpl in *. rewrite Ascii.eqb_sym in Hv.
    destruct (Ascii.eqb c sep); simpl in Hv; [discriminate|].
    now rewrite (IH Hv).
Qed.

(** A string with exactly one separator splits in two at it. *)
Lemma split_one_sep (sep : ascii) (v r : string) :
  has_char sep v = false -> has_char sep r = false ->
  Text.split sep (v ++ String sep r) = [v; r].
Proof.
  intros Hv Hr. now rewrite split_app_sep, split_no_sep.
Qed.

Lemma split_nonempty (sep : ascii) (s : string) : Text.split sep s <> [].
Proof.
  induction s as [|c s IH]; simpl; [discriminate|].
  destruct (Ascii.eqb c sep); [discriminate|].
  destruct (Text.split sep s); [contradiction|discriminate].
Qed.

Lemma split_join (sep : ascii) (s : string) :
  join (String sep "") (Text.split sep s) = s.
Proof.
  induction s as [|c s IH]; simpl; [reflexivity|].
  pose proof (split_nonempty sep s) as Hne.
  destruct (Ascii.eqb_spec c sep) as [->|_];
    destruct (Text.split sep s) as [|w ws]; try contradiction.
  - change (String sep (join (String sep "") (w :: ws)) = String sep s).
    now rewrite IH.
  - rewrite <- IH. now destruct ws.
Qed.

(** When [split] gives two parts, the separator stood between them. *)
Lemma split_two_inv (sep : ascii) (s v r : string) :
  Text.split sep s = [v; r] -> s = v ++ String sep r.
Proof. intros H. rewrite <- (split_join sep s), H. reflexivity. Qed.

(** ** [YumPackage.check_resource] and [list_changes] *)

Section YumFacts.
Context (file_exists : string -> bool)
        (run : string -> list string -> string * string * Z).

Local Abbreviation _run_yum := (YumPackage._run_yum file_exists run).
Local Abbreviation check_resource := (YumPackage.check_resource file_exists run).
Local Abbreviation list_changes := (YumPackage.list_changes file_exists run).

(** C6, as amended.  When the info query reported the package (fields
    [Repo], [Version] and [Release]) and the first line of the
    check-update output is not a security banner and matches three
    whitespace-separated columns, and the version column holds
    exactly one dash, the version column is split at that dash into
    (version, release) and that pair is the [update] entry of the
    snapshot returned by [check_resource]. *)
Theorem check_resource_update (resource : YumPackage.Package)
        (output : gmap string string) (repo ver rel : string)
        (line0 : string) (lines0 : list string) (c1 c2 c3 v r : string) :
  YumPackage._parse_fields
    (tail (Text.split "010" (_run_yum ["info"; YumPackage.name resource]).1.1))
  = Ok output ->
  output !! "Repo" = Some repo ->
  output !! "Version" = Some ver ->
  output !! "Release" = Some rel ->
  Text.split "010" (_run_yum ["check-update"; YumPackage.name resource]).1.1
  = line0 :: lines0 ->
  Text.startswith "Security:" line0 = false ->
  Text.search_columns line0 = Some (c1, c2, c3) ->
  c2 = v ++ "-" ++ r ->
  has_char "-" v = false -> has_char "-" r = false ->
  exists data,
    check_resource resource = Ok data
    /\ data !! "update" = Some (PTuple (PStr v) (PStr r))
    /\ data !! "version" = Some (PStr ver)
    /\ data !! "release" = Some (PStr rel).
Proof.
  intros Hparse Hrepo Hver Hrel Hlines Hsec Hcols -> Hv Hr.
  unfold YumPackage.check_resource.
  rewrite Hparse. cbn [mbind result_bind]. rewrite Hrepo.
  unfold getitem. rewrite Hver, Hrel. cbn [mbind result_bind].
  rewrite Hlines, Hcols, Hsec. cbn [negb].
  change (v ++ "-" ++ r) with (v ++ String "-" r).
  rewrite (split_one_sep "-" v r Hv Hr).
  eexists. split; [reflexivity|].
  split; [apply lookup_insert_eq|].
  now rewrite !lookup_insert_ne, lookup_insert_eq by discriminate.
Qed.

(** With a version column that does not split in two at dashes, the
    unpacking of the parts fails. *)
Lemma check_resource_unpack_fails (resource : YumPackage.Package)
      (output : gmap string string) (repo ver rel : string)
      (line0 : string) (lines0 : list string) (c1 c2 c3 : string) :
  YumPackage._parse_fields
    (tail (Text.split "010" (_run_yum ["info"; YumPackage.name resource]).1.1))
  = Ok output ->
  output !! "Repo" = Some repo ->
  output !! "Version" = Some ver ->
  output !! "Release" = Some rel ->
  Text.split "010" (_run_yum ["check-update"; YumPackage.name resource]).1.1
  = line0 :: lines0 ->
  Text.startswith "Security:" line0 = false ->
  Text.search_columns line0 = Some (c1, c2, c3) ->
  List.length (Text.split "-" c2) <> 2 ->
  check_resource resource = Raise (ValueError "unpack").
Proof.
  intros Hparse Hrepo Hver Hrel Hlines Hsec Hcols Hlen.
  unfold YumPackage.check_resource.
  rewrite Hparse. cbn [mbind result_bind]. rewrite Hrepo.
  unfold getitem. rewrite Hver, Hrel. cbn [mbind result_bind].
  rewrite Hlines, Hcols, Hsec. cbn [negb].
  destruct (Text.split "-" c2) as [|a [|b [|c l]]]; try reflexivity.
  now contradiction Hlen.
Qed.

Lemma changed_not_empty (k : string) (v : pyval) (m : gmap string pyval) :
  Ok (<[k := v]> m) <> Ok (∅ : gmap string pyval).
Proof. intros [= H]. now apply insert_non_empty in H. Qed.

End YumFacts.

Lemma check_resource_update_witness :
  exists data,
    YumPackage.check_resource no_dnf
      (yum_host bash_info ["bash.x86_64    4.2.46-34.el7    updates"; ""])
      (bash "latest") = Ok data
    /\ data !! "update" = Some (PTuple (PStr "4.2.46") (PStr "34.el7"))
    /\ data !! "version" = Some (PStr "4.2.46")
    /\ data !! "release" = Some (PStr "31.el7").
Proof.
  eapply (check_resource_update no_dnf
            (yum_host bash_info ["bash.x86_64    4.2.46-34.el7    updates"; ""])
            (bash "latest") _ "installed" "4.2.46" "31.el7"
            "bash.x86_64    4.2.46-34.el7    updates" [""]
            "bash.x86_64" "4.2.46-34.el7" "updates" "4.2.46" "34.el7");
    reflexivity.
Defined.

(** C6, as stated, fails: a version column with two dashes matches the
    three columns and is no security banner, its split at the first
    dash is a pair, yet [check_resource] raises instead of returning a
    snapshot with that pair. *)
Lemma check_resource_two_dashes :
  let line0 := "bash.x86_64    4.2-46-34.el7    updates" in
  let result :=
    YumPackage.check_resource no_dnf (yum_host bash_info [line0; ""])
      (bash "latest") in
  Text.startswith "Security:" line0 = false
  /\ Text.search_columns line0 = Some ("bash.x86_64", "4.2-46-34.el7", "updates")
  /\ split_first_dash "4.2-46-34.el7" = Some ("4.2", "46-34.el7")
  /\ result = Raise (ValueError "unpack")
  /\ ~ (exists data, result = Ok data
          /\ data !! "update" = Some (PTuple (PStr "4.2") (PStr "46-34.el7"))).
Proof.
  repeat split; try reflexivity.
  intros (data & H & _). vm_compute in H. discriminate H.
Qed.


(** The other side of the equivalence: with an update on offer, the
    desired state [latest] is not yet met and a version change is
    listed. *)
Example list_changes_update_pending :
  YumPackage.list_changes no_dnf
    (yum_host bash_info ["bash.x86_64    4.2.46-34.el7    updates"; ""])
    (bash "latest")
  = Ok {[ "version" := PTuple (PTuple (PStr "4.2.46") (PStr "31.el7"))
                              (PTuple (PStr "4.2.46") (PStr "34.el7")) ]}.
Proof. vm_compute. reflexivity. Qed.

(** * Further properties *)

(** ** [AgentConfigHandler]: round trips through the shared map *)

(** X1.  Once a map is in the handler context, creating (or updating)
    a resource and reading the same agent name again gives the
    resource's URI, and the read leaves the setting as written. *)
Theorem agent_create_then_read (w : AgentConfigHandler.world)
        (m0 : gmap string string) (r r' : AgentConfig)
        (changes : gmap string pyval) :
  AgentConfigHandler.ctx_map w = Some m0 ->
  agentname r' = agentname r ->
  exists w1 w2,
    AgentConfigHandler.create_resource r w = (Ok tt, w1)
    /\ AgentConfigHandler.update_resource changes r w = (Ok tt, w1)
    /\ AgentConfigHandler.read_resource r' w1
       = (Ok {| agentname := agentname r'; uri := uri r;
                autostart := autostart r' |}, w2)
    /\ AgentConfigHandler.setting w2 = AgentConfigHandler.setting w1.
Proof.
  intros Hctx Hn. destruct w as [m c]. simpl in Hctx. subst c.
  exists {| AgentConfigHandler.setting := <[agentname r := uri r]> m0;
            AgentConfigHandler.ctx_map := Some (<[agentname r := uri r]> m0) |}.
  exists {| AgentConfigHandler.setting := <[agentname r := uri r]> m0;
            AgentConfigHandler.ctx_map := Some (<[agentname r := uri r]> m0) |}.
  run_world. split; [reflexivity|]. split; [reflexivity|].
  rewrite Hn, lookup_insert_eq. split; reflexivity.
Qed.

Lemma agent_create_then_read_witness :
  exists w1 w2,
    AgentConfigHandler.create_resource (agent_cfg (Ok (PBool true)))
      {| AgentConfigHandler.setting := ∅;
         AgentConfigHandler.ctx_map := Some ∅ |} = (Ok tt, w1)
    /\ AgentConfigHandler.read_resource
         {| agentname := "worker1"; uri := ""; autostart := Ok (PBool true) |} w1
       = (Ok (agent_cfg (Ok (PBool true))), w2).
Proof.
  destruct (agent_create_then_read
              {| AgentConfigHandler.setting := ∅;
                 AgentConfigHandler.ctx_map := Some ∅ |} ∅
              (agent_cfg (Ok (PBool true)))
              {| agentname := "worker1"; uri := ""; autostart := Ok (PBool true) |}
              ∅ eq_refl eq_refl) as (w1 & w2 & Hc & _ & Hr & _).
  exists w1, w2. split; [exact Hc|exact Hr].
Defined.

(** X2.  Deleting an agent name that is in the cached map writes back
    the map without it, every other entry unchanged, and a following
    read is purged; deleting a name that is not in the cached map
    raises [KeyError] and writes nothing. *)
Theorem agent_delete_resource (w : AgentConfigHandler.world)
        (m0 : gmap string string) (r : AgentConfig) :
  AgentConfigHandler.ctx_map w = Some m0 ->
  (is_Some (m0 !! agentname r) ->
     exists w1 w2,
       AgentConfigHandler.delete_resource r w = (Ok tt, w1)
       /\ AgentConfigHandler.setting w1 = delete (agentname r) m0
       /\ (forall k, k <> agentname r ->
             AgentConfigHandler.setting w1 !! k = m0 !! k)
       /\ AgentConfigHandler.read_resource r w1 = (Raise ResourcePurged, w2))
  /\ (m0 !! agentname r = None ->
        AgentConfigHandler.delete_resource r w
        = (Raise (KeyError (agentname r)), w)).
Proof.
  intros Hctx. destruct w as [m c]. simpl in Hctx. subst c. split.
  - intros [u Hu].
    exists {| AgentConfigHandler.setting := delete (agentname r) m0;
              AgentConfigHandler.ctx_map := Some (delete (agentname r) m0) |}.
    exists {| AgentConfigHandler.setting := delete (agentname r) m0;
              AgentConfigHandler.ctx_map := Some (delete (agentname r) m0) |}.
    run_world. rewrite Hu. cbn.
    split; [reflexivity|]. split; [reflexivity|]. split.
    + intros k Hk. now apply lookup_delete_ne.
    + now rewrite lookup_delete_eq.
  - intros Hnone. run_world. now rewrite Hnone.
Qed.

Lemma agent_delete_resource_witness :
  (exists w1 w2,
     AgentConfigHandler.delete_resource (agent_cfg (Ok (PBool true)))
       {| AgentConfigHandler.setting := {[ "worker1" := "uri1" ]};
          AgentConfigHandler.ctx_map := Some {[ "worker1" := "uri1" ]} |}
     = (Ok tt, w1)
     /\ AgentConfigHandler.setting w1 = delete "worker1" {[ "worker1" := "uri1" ]}
     /\ AgentConfigHandler.read_resource (agent_cfg (Ok (PBool true))) w1
        = (Raise ResourcePurged, w2))
  /\ AgentConfigHandler.delete_resource (agent_cfg (Ok (PBool true)))
       {| AgentConfigHandler.setting := ∅; AgentConfigHandler.ctx_map := Some ∅ |}
     = (Raise (KeyError "worker1"),
        {| AgentConfigHandler.setting := ∅; AgentConfigHandler.ctx_map := Some ∅ |}).
Proof.
  split.
  - destruct (proj1 (agent_delete_resource
                {| AgentConfigHandler.setting := {[ "worker1" := "uri1" ]};
                   AgentConfigHandler.ctx_map := Some {[ "worker1" := "uri1" ]} |}
                {[ "worker1" := "uri1" ]} (agent_cfg (Ok (PBool true))) eq_refl))
      as (w1 & w2 & Hd & Hs & _ & Hr).
    + vm_compute. eauto.
    + exists w1, w2. repeat split; assumption.
  - apply (proj2 (agent_delete_resource
             {| AgentConfigHandler.setting := ∅;
                AgentConfigHandler.ctx_map := Some ∅ |} ∅
             (agent_cfg (Ok (PBool true))) eq_refl)).
    reflexivity.
Defined.

(** X3.  The write-back of create and update starts from the map cached
    by the read step, not from the setting as it is at write time: an
    entry that appeared in the setting after the read, under another
    agent name that the cached map does not have, is gone after the
    write-back. *)
Theorem agent_write_back_uses_cached_map (now cached : gmap string string)
        (r : AgentConfig) (changes : gmap string pyval) (k : string) :
  k <> agentname r -> cached !! k = None ->
  exists w1,
    AgentConfigHandler.create_resource r
      {| AgentConfigHandler.setting := now;
         AgentConfigHandler.ctx_map := Some cached |} = (Ok tt, w1)
    /\ AgentConfigHandler.update_resource changes r
         {| AgentConfigHandler.setting := now;
            AgentConfigHandler.ctx_map := Some cached |} = (Ok tt, w1)
    /\ AgentConfigHandler.setting w1 = <[agentname r := uri r]> cached
    /\ AgentConfigHandler.setting w1 !! k = None.
Proof.
  intros Hk Hnone.
  exists {| AgentConfigHandler.setting := <[agentname r := uri r]> cached;
            AgentConfigHandler.ctx_map := Some (<[agentname r := uri r]> cached) |}.
  run_world.
  split; [reflexivity|]. split; [reflexivity|]. split; [reflexivity|].
  now rewrite lookup_insert_ne.
Qed.

Lemma agent_write_back_uses_cached_map_witness :
  exists w1,
    AgentConfigHandler.create_resource (agent_cfg (Ok (PBool true)))
      {| AgentConfigHandler.setting := {[ "worker2" := "uri3" ]};
         AgentConfigHandler.ctx_map := Some ∅ |} = (Ok tt, w1)
    /\ AgentConfigHandler.setting w1 !! "worker2" = None.
Proof.
  destruct (agent_write_back_uses_cached_map {[ "worker2" := "uri3" ]} ∅
              (agent_cfg (Ok (PBool true))) ∅ "worker2")
    as (w1 & Hc & _ & _ & Hk); [discriminate|reflexivity|].
  exists w1. split; [exact Hc|exact Hk].
Defined.

(** ** [YumPackage._parse_fields]: keys and skipped lines *)

Lemma lstrip_idem (s : string) : Text.lstrip (Text.lstrip s) = Text.lstrip s.
Proof.
  induction s as [|c s IH]; simpl; [reflexivity|].
  destruct (Text.is_space c) eqn:Hc; [exact IH|]. simpl. now rewrite Hc.
Qed.

Lemma rstrip_idem (s : string) : Text.rstrip (Text.rstrip s) = Text.rstrip s.
Proof.
  induction s as [|c s IH]; simpl; [reflexivity|].
  destruct (Text.rstrip s) as [|d t] eqn:E.
  - destruct (Text.is_space c) eqn:Hc; simpl; [reflexivity|now rewrite Hc].
  - change (Text.rstrip (String c (String d t)) = String c (String d t)).
    simpl. simpl in IH. now rewrite IH.
Qed.

(** Stripping on the right keeps a string that does not start with
    whitespace free of leading whitespace. *)
Lemma lstrip_rstrip (s : string) :
  Text.lstrip s = s -> Text.lstrip (Text.rstrip s) = Text.rstrip s.
Proof.
  destruct s as [|c s]; [reflexivity|].
  simpl. destruct (Text.is_space c) eqn:Hc.
  - intros H. exfalso.
    assert (String.length (Text.lstrip s) <= String.length s) as Hlen.
    { clear. induction s as [|d s IH]; simpl; [lia|].
      destruct (Text.is_space d); simpl; lia. }
    rewrite H in Hlen. simpl in Hlen. lia.
  - intros _. destruct (Text.rstrip s); simpl; now rewrite Hc.
Qed.

Lemma strip_idem (s : string) : Text.strip (Text.strip s) = Text.strip s.
Proof.
  unfold Text.strip.
  rewrite (lstrip_rstrip (Text.lstrip s) (lstrip_idem s)).
  apply rstrip_idem.
Qed.

Lemma parse_loop_keys (lines : list string) (props : gmap string string)
      (old_key : option string) (res : gmap string string) :
  (forall k, is_Some (props !! k) -> k <> "" /\ Text.strip k = k) ->
  started props old_key ->
  YumPackage.parse_loop lines props old_key = Ok res ->
  forall k, is_Some (res !! k) -> k <> "" /\ Text.strip k = k.
Proof.
  revert props old_key.
  induction lines as [|l lines IH]; intros props old_key Hgood Hst; simpl.
  - intros [= <-]. exact Hgood.
  - destruct (String.eqb (Text.strip l) ""); [now apply IH|].
    destruct (String.eqb (Text.strip l) "Available Packages");
      [intros [= <-]; exact Hgood|].
    destruct (Text.match_field l) as [[key value]|]; [|now apply IH].
    destruct (String.eqb_spec (Text.strip key) "") as [_|Hne].
    + destruct old_key as [k0|]; [|discriminate].
      destruct (Hst k0 eq_refl) as [v Hv]. unfold getitem. rewrite Hv. simpl.
      apply IH.
      * intros k [x Hx]. apply Hgood.
        destruct (decide (k0 = k)) as [<-|Hk]; [eauto|].
        rewrite lookup_insert_ne in Hx by exact Hk. eauto.
      * intros k' [= <-]. rewrite lookup_insert_eq. eauto.
    + apply IH.
      * intros k [x Hx].
        destruct (decide (Text.strip key = k)) as [<-|Hk].
        -- split; [exact Hne|apply strip_idem].
        -- rewrite lookup_insert_ne in Hx by exact Hk. apply Hgood. eauto.
      * intros k' [= <-]. rewrite lookup_insert_eq. eauto.
Qed.

(** X4.  Every key of the dictionary [_parse_fields] returns is
    non-empty and carries no leading or trailing whitespace. *)
Theorem parse_fields_keys_stripped (lines : list string)
        (props : gmap string string) (k : string) :
  YumPackage._parse_fields lines = Ok props ->
  is_Some (props !! k) ->
  k <> "" /\ Text.strip k = k.
Proof.
  intros Hp. revert k. eapply parse_loop_keys; [| |exact Hp].
  - intros k [x Hx]. rewrite lookup_empty in Hx. discriminate.
  - intros k [=].
Qed.

Lemma parse_fields_keys_stripped_witness :
  "Description" <> "" /\ Text.strip "Description" = "Description".
Proof.
  eapply (parse_fields_keys_stripped sample_info_lines _ "Description").
  - reflexivity.
  - vm_compute. eauto.
Defined.

(** X5.  A blank line, and a line that is not the marker and does not
    match the field pattern, has no effect wherever it stands: the
    loop gives the same result with the line removed. *)
Theorem parse_loop_skips_line (pre rest : list string) (line : string)
        (props : gmap string string) (old_key : option string) :
  Text.strip line = ""
  \/ (Text.strip line <> "Available Packages" /\ Text.match_field line = None) ->
  YumPackage.parse_loop (pre ++ line :: rest) props old_key
  = YumPackage.parse_loop (pre ++ rest) props old_key.
Proof.
  intros Hskip. revert props old_key.
  induction pre as [|l pre IH]; intros props old_key; simpl.
  - destruct Hskip as [->|[Hm Hf]]; [reflexivity|].
    destruct (String.eqb (Text.strip line) ""); [reflexivity|].
    apply String.eqb_neq in Hm. now rewrite Hm, Hf.
  - destruct (String.eqb (Text.strip l) ""); [apply IH|].
    destruct (String.eqb (Text.strip l) "Available Packages"); [reflexivity|].
    destruct (Text.match_field l) as [[key value]|]; [|apply IH].
    destruct (String.eqb (Text.strip key) ""); [|apply IH].
    destruct old_key as [k|]; [|reflexivity].
    destruct (getitem props k) as [v|e]; simpl; [apply IH|reflexivity].
Qed.

Lemma parse_loop_skips_line_witness :
  YumPackage.parse_loop (["Name : bash"] ++ "   " :: ["Arch : x86_64"]) ∅ None
  = YumPackage.parse_loop (["Name : bash"] ++ ["Arch : x86_64"]) ∅ None
  /\ YumPackage.parse_loop (["Name : bash"] ++ "URL: none" :: ["Arch : x86_64"]) ∅ None
     = YumPackage.parse_loop (["Name : bash"] ++ ["Arch : x86_64"]) ∅ None.
Proof.
  split.
  - apply (parse_loop_skips_line ["Name : bash"] ["Arch : x86_64"] "   " ∅ None).
    left. reflexivity.
  - apply (parse_loop_skips_line ["Name : bash"] ["Arch : x86_64"] "URL: none" ∅ None).
    right. split; [discriminate|reflexivity].
Defined.

(** ** [YumPackage.check_resource] and [list_changes]: snapshots *)

Section YumSnapshotFacts.
Context (file_exists : string -> bool)
        (run : string -> list string -> string * string * Z).

Local Abbreviation _run_yum := (YumPackage._run_yum file_exists run).
Local Abbreviation check_resource := (YumPackage.check_resource file_exists run).
Local Abbreviation list_changes := (YumPackage.list_changes file_exists run).

(** The two forms of a snapshot. *)
Lemma check_resource_cases (resource : YumPackage.Package)
      (st : gmap string pyval) :
  check_resource resource = Ok st ->
  st = {[ "state" := PStr "removed" ]}
  \/ exists s ver rel upd,
       (s = "installed" \/ s = "removed")
       /\ (upd = PNone \/ exists v r, upd = PTuple (PStr v) (PStr r))
       /\ st = <["update" := upd]>
                 (<["release" := PStr rel]>
                    (<["version" := PStr ver]> {[ "state" := PStr s ]})).
Proof.
  unfold YumPackage.check_resource.
  destruct (YumPackage._parse_fields _) as [output|e]; cbn [mbind result_bind];
    [|discriminate].
  destruct (output !! "Repo") as [repo|]; [|intros [= <-]; now left].
  unfold getitem.
  destruct (output !! "Version") as [ver|]; cbn [mbind result_bind]; [|discriminate].
  destruct (output !! "Release") as [rel|]; cbn [mbind result_bind]; [|discriminate].
  intros Hst. right.
  set (s := if String.eqb repo "installed" || String.eqb repo "@System"
            then "installed" else "removed") in *.
  assert (s = "installed" \/ s = "removed") as Hs
      by (unfold s; destruct (_ || _); auto).
  destruct (Text.split "010" _) as [|line0 lines0].
  { injection Hst as <-. exists s, ver, rel, PNone. auto. }
  destruct (Text.search_columns line0) as [[[c1 c2] c3]|].
  2: { injection Hst as <-. exists s, ver, rel, PNone. auto. }
  destruct (negb (Text.startswith "Security:" line0)).
  2: { injection Hst as <-. exists s, ver, rel, PNone. auto. }
  destruct (Text.split "-" c2) as [|v [|r [|x l]]]; try discriminate.
  injection Hst as <-. exists s, ver, rel, (PTuple (PStr v) (PStr r)).
  split; [exact Hs|]. split; [right; eauto|].
  now rewrite insert_insert_eq.
Qed.

(** X6.  A snapshot returned by [check_resource] always has a [state]
    that is ["installed"] or ["removed"]; it has an [update] entry only
    together with string [version] and [release] entries, and that
    entry is [None] or a pair of strings. *)
Theorem check_resource_snapshot (resource : YumPackage.Package)
        (st : gmap string pyval) :
  check_resource resource = Ok st ->
  (st !! "state" = Some (PStr "installed")
   \/ st !! "state" = Some (PStr "removed"))
  /\ (forall upd, st !! "update" = Some upd ->
        (upd = PNone \/ exists v r, upd = PTuple (PStr v) (PStr r))
        /\ (exists ver, st !! "version" = Some (PStr ver))
        /\ (exists rel, st !! "release" = Some (PStr rel))).
Proof.
  intros Hst.
  destruct (check_resource_cases resource st Hst)
    as [->|(s & ver & rel & upd & Hs & Hupd & ->)].
  - split; [right; reflexivity|]. intros upd Hu. discriminate Hu.
  - split.
    + rewrite !lookup_insert_ne, lookup_singleton_eq by discriminate.
      destruct Hs as [->| ->]; auto.
    + intros upd' Hu. rewrite lookup_insert_eq in Hu. injection Hu as <-.
      split; [exact Hupd|]. split.
      * exists ver. now rewrite !lookup_insert_ne, lookup_insert_eq by discriminate.
      * exists rel. now rewrite lookup_insert_ne, lookup_insert_eq by discriminate.
Qed.

(** X7.  Whenever [check_resource] returns a snapshot, [list_changes]
    returns a change-set (its dictionary lookups never fail); the
    change-set has no keys but ["state"] and ["version"], the desired
    side of a ["state"] entry is ["removed"] or ["installed"], and a
    ["version"] entry only occurs for the desired state ["latest"]. *)
Theorem list_changes_total (resource : YumPackage.Package)
        (st : gmap string pyval) :
  check_resource resource = Ok st ->
  exists changes,
    list_changes resource = Ok changes
    /\ (forall k, is_Some (changes !! k) -> k = "state" \/ k = "version")
    /\ (forall c, changes !! "state" = Some c ->
          exists cur, c = PTuple cur (PStr "removed")
                      \/ c = PTuple cur (PStr "installed"))
    /\ (is_Some (changes !! "version") ->
          YumPackage.state resource = "latest").
Proof.
  intros Hst.
  assert (exists cur, st !! "state" = Some cur) as [cur Hcur].
  { destruct (check_resource_cases resource st Hst)
      as [->|(s & ver & rel & upd & _ & _ & ->)]; eexists.
    - reflexivity.
    - now rewrite !lookup_insert_ne, lookup_singleton_eq by discriminate. }
  assert (forall upd, st !! "update" = Some upd ->
            exists ver rel, st !! "version" = Some ver
                            /\ st !! "release" = Some rel) as Hvr.
  { destruct (check_resource_cases resource st Hst)
      as [->|(s & ver & rel & upd & _ & _ & ->)]; intros u Hu.
    - discriminate Hu.
    - exists (PStr ver), (PStr rel).
      now rewrite !lookup_insert_ne, !lookup_insert_eq by discriminate. }
  unfold YumPackage.list_changes. rewrite Hst. cbn [mbind result_bind].
  unfold getitem. rewrite Hcur. cbn [mbind result_bind].
  set (first :=
         if String.eqb (YumPackage.state resource) "removed" then _ else _).
  assert (exists ch1, first = Ok ch1
            /\ (forall k, is_Some (ch1 !! k) -> k = "state")
            /\ (forall c, ch1 !! "state" = Some c ->
                  exists cur', c = PTuple cur' (PStr "removed")
                               \/ c = PTuple cur' (PStr "installed")))
    as (ch1 & -> & Hk1 & Hc1).
  { unfold first.
    destruct (String.eqb_spec (YumPackage.state resource) "removed") as [E|_].
    - destruct (negb (bool_decide (cur = PStr "removed"))); eexists;
        (split; [reflexivity|]); split.
      + intros k [x Hx]. destruct (decide ("state" = k)) as [<-|Hk]; [reflexivity|].
        rewrite lookup_insert_ne, lookup_empty in Hx by exact Hk. discriminate.
      + intros c Hc. rewrite lookup_insert_eq in Hc. injection Hc as <-.
        exists cur. left. now rewrite E.
      + intros k [x Hx]. rewrite lookup_empty in Hx. discriminate.
      + intros c Hc. rewrite lookup_empty in Hc. discriminate.
    - destruct (String.eqb (YumPackage.state resource) "installed"
                || String.eqb (YumPackage.state resource) "latest").
      + destruct (negb (bool_decide (cur = PStr "installed"))); eexists;
          (split; [reflexivity|]); split.
        * intros k [x Hx]. destruct (decide ("state" = k)) as [<-|Hk]; [reflexivity|].
          rewrite lookup_insert_ne, lookup_empty in Hx by exact Hk. discriminate.
        * intros c Hc. rewrite lookup_insert_eq in Hc. injection Hc as <-.
          exists cur. now right.
        * intros k [x Hx]. rewrite lookup_empty in Hx. discriminate.
        * intros c Hc. rewrite lookup_empty in Hc. discriminate.
      + eexists. split; [reflexivity|]. split.
        * intros k [x Hx]. rewrite lookup_empty in Hx. discriminate.
        * intros c Hc. rewrite lookup_empty in Hc. discriminate. }
  cbn [mbind result_bind].
  destruct (st !! "update") as [upd|] eqn:Hupd.
  - destruct (negb (bool_decide (upd = PNone))) eqn:Hn; cbn [andb].
    + destruct (String.eqb_spec (YumPackage.state resource) "latest") as [E|_].
      * destruct (Hvr upd eq_refl) as (ver & rel & -> & ->).
        cbn [mbind result_bind]. eexists. split; [reflexivity|].
        split; [|split].
        -- intros k [x Hx]. destruct (decide ("version" = k)) as [<-|Hk]; [now right|].
           rewrite lookup_insert_ne in Hx by exact Hk. left. apply Hk1. eauto.
        -- intros c Hc. rewrite lookup_insert_ne in Hc by discriminate. now apply Hc1.
        -- intros _. exact E.
      * exists ch1. split; [reflexivity|]. split; [|split].
        -- intros k Hk. left. now apply Hk1.
        -- exact Hc1.
        -- intros Hv. apply Hk1 in Hv. discriminate Hv.
    + exists ch1. split; [reflexivity|]. split; [|split].
      * intros k Hk. left. now apply Hk1.
      * exact Hc1.
      * intros Hv. apply Hk1 in Hv. discriminate Hv.
  - exists ch1. split; [reflexivity|]. split; [|split].
    + intros k Hk. left. now apply Hk1.
    + exact Hc1.
    + intros Hv. apply Hk1 in Hv. discriminate Hv.
Qed.

(** X8.  When the info query reported the package and the first line
    of the check-update output is a security banner or does not hold
    three whitespace-separated columns (a blank first line, say), the
    snapshot reports no update, whatever the lines after the first
    are. *)
Theorem check_resource_no_update (resource : YumPackage.Package)
        (output : gmap string string) (repo ver rel : string)
        (line0 : string) (lines0 : list string) :
  YumPackage._parse_fields
    (tail (Text.split "010" (_run_yum ["info"; YumPackage.name resource]).1.1))
  = Ok output ->
  output !! "Repo" = Some repo ->
  output !! "Version" = Some ver ->
  output !! "Release" = Some rel ->
  Text.split "010" (_run_yum ["check-update"; YumPackage.name resource]).1.1
  = line0 :: lines0 ->
  Text.startswith "Security:" line0 = true \/ Text.search_columns line0 = None ->
  exists data,
    check_resource resource = Ok data
    /\ data !! "update" = Some PNone.
Proof.
  intros Hparse Hrepo Hver Hrel Hlines Hno.
  unfold YumPackage.check_resource.
  rewrite Hparse. cbn [mbind result_bind]. rewrite Hrepo.
  unfold getitem. rewrite Hver, Hrel. cbn [mbind result_bind].
  rewrite Hlines.
  destruct Hno as [Hsec|Hcols].
  - rewrite Hsec. cbn [negb].
    destruct (Text.search_columns line0) as [[[c1 c2] c3]|];
      eexists; (split; [reflexivity|apply lookup_insert_eq]).
  - rewrite Hcols. eexists. split; [reflexivity|apply lookup_insert_eq].
Qed.
End YumSnapshotFacts.

Lemma check_resource_snapshot_witness :
  exists st,
    YumPackage.check_resource no_dnf (yum_host bash_info [""]) (bash "latest") = Ok st
    /\ (st !! "state" = Some (PStr "installed")
        \/ st !! "state" = Some (PStr "removed")).
Proof.
  eexists. split; [reflexivity|].
  eapply (check_resource_snapshot no_dnf (yum_host bash_info [""]) (bash "latest")).
  reflexivity.
Defined.

Lemma list_changes_total_witness :
  exists changes,
    YumPackage.list_changes no_dnf
      (yum_host bash_info ["bash.x86_64    4.2.46-34.el7    updates"; ""])
      (bash "latest") = Ok changes
    /\ (is_Some (changes !! "version") -> YumPackage.state (bash "latest") = "latest").
Proof.
  edestruct (list_changes_total no_dnf
              (yum_host bash_info ["bash.x86_64    4.2.46-34.el7    updates"; ""])
              (bash "latest")) as (changes & Hl & _ & _ & Hv).
  - reflexivity.
  - exists changes. split; [exact Hl|exact Hv].
Defined.

Lemma check_resource_no_update_witness :
  exists data,
    YumPackage.check_resource no_dnf
      (yum_host bash_info [""; "bash.x86_64    4.2.46-34.el7    updates"; ""])
      (bash "latest") = Ok data
    /\ data !! "update" = Some PNone.
Proof.
  eapply (check_resource_no_update no_dnf
            (yum_host bash_info [""; "bash.x86_64    4.2.46-34.el7    updates"; ""])
            (bash "latest") _ "installed" "4.2.46" "31.el7"
            "" ["bash.x86_64    4.2.46-34.el7    updates"; ""]);
    try reflexivity.
  right. reflexivity.
Defined.

(** ** Steps of the monad [M] *)

Lemma bind_ok {S A B} (m : M S A) (f : A -> M S B) (s s' : S) (a : A) :
  m s = (Ok a, s') -> (m ≫= f) s = f a s'.
Proof. intros H. unfold mbind, M_bind, bind. now rewrite H. Qed.

Lemma bind_raise {S A B} (m : M S A) (f : A -> M S B) (s s' : S) (e : exn) :
  m s = (Raise e, s') -> (m ≫= f) s = (Raise e, s').
Proof. intros H. unfold mbind, M_bind, bind. now rewrite H. Qed.

(** ** [YumPackage.do_changes] *)

Section YumApplyFacts.
Context (file_exists : string -> bool)
        (respond : list run_call -> run_call -> string * string * Z).

Local Abbreviation do_changes := (YumApply.do_changes file_exists respond).

Lemma run_yum_call (args : list string) (s : shell) :
  YumApply._run_yum file_exists respond args s
  = (Ok (respond (calls s) (yum_call file_exists args)),
     {| calls := calls s ++ [yum_call file_exists args];
        shell_change := shell_change s |}).
Proof.
  unfold YumApply._run_yum, yum_call.
  destruct (file_exists "/usr/bin/dnf"); reflexivity.
Qed.

Lemma result_zero (out : string * string * Z) (s : shell) :
  out.2 = 0%Z -> YumApply._result out s = (Ok tt, s).
Proof.
  intros H. unfold YumApply._result. apply Z.eqb_eq in H. now rewrite H.
Qed.

Lemma result_nonzero (out : string * string * Z) (s : shell) :
  out.2 <> 0%Z -> exists e, YumApply._result out s = (Raise e, s).
Proof.
  intros H. unfold YumApply._result. apply Z.eqb_neq in H. rewrite H.
  eexists. reflexivity.
Qed.

(** One package command followed by the check of its exit code. *)
Lemma yum_step_ok {B} (args : list string) (k : M shell B) (s : shell) :
  (respond (calls s) (yum_call file_exists args)).2 = 0%Z ->
  (out ← YumApply._run_yum file_exists respond args; YumApply._result out;; k) s
  = k {| calls := calls s ++ [yum_call file_exists args];
         shell_change := shell_change s |}.
Proof.
  intros H. erewrite bind_ok by apply run_yum_call.
  erewrite bind_ok by (apply result_zero; exact H). reflexivity.
Qed.

Lemma yum_step_fail {B} (args : list string) (k : M shell B) (s : shell) :
  (respond (calls s) (yum_call file_exists args)).2 <> 0%Z ->
  exists e,
    (out ← YumApply._run_yum file_exists respond args; YumApply._result out;; k) s
    = (Raise e, {| calls := calls s ++ [yum_call file_exists args];
                   shell_change := shell_change s |}).
Proof.
  intros H. erewrite bind_ok by apply run_yum_call.
  destruct (result_nonzero _ {| calls := calls s ++ [yum_call file_exists args];
                                shell_change := shell_change s |} H) as [e He].
  exists e. now erewrite bind_raise by exact He.
Qed.

(** X9.  For a change of state to ["installed"], [do_changes] runs the
    install command and then the update command.  A non-zero exit of
    install raises before update is run; a non-zero exit of update
    raises as well; the resource is marked created only when both
    exit with 0. *)
Theorem yum_install_then_update (resource : YumPackage.Package)
        (changes : gmap string pyval) (cur : pyval) (s : shell) :
  changes !! "state" = Some (PTuple cur (PStr "installed")) ->
  let i := yum_call file_exists ["install"; YumPackage.name resource] in
  let u := yum_call file_exists ["update"; YumPackage.name resource] in
  ((respond (calls s) i).2 <> 0%Z ->
     exists e, do_changes resource changes s
               = (Raise e, {| calls := calls s ++ [i];
                              shell_change := shell_change s |}))
  /\ ((respond (calls s) i).2 = 0%Z ->
      (respond (calls s ++ [i]) u).2 <> 0%Z ->
      exists e, do_changes resource changes s
                = (Raise e, {| calls := calls s ++ [i; u];
                               shell_change := shell_change s |}))
  /\ ((respond (calls s) i).2 = 0%Z ->
      (respond (calls s ++ [i]) u).2 = 0%Z ->
      do_changes resource changes s
      = (Ok tt, {| calls := calls s ++ [i; u];
                   shell_change := Some Created |})).
Proof.
  intros Hst i u. subst i u. unfold YumApply.do_changes. rewrite Hst.
  erewrite bind_ok by reflexivity.
  rewrite bool_decide_eq_false_2 by discriminate.
  rewrite bool_decide_eq_true_2 by reflexivity.
  split; [|split].
  - intros Hi. now apply yum_step_fail.
  - intros Hi Hu. rewrite yum_step_ok by exact Hi.
    destruct (yum_step_fail ["update"; YumPackage.name resource]
                (shell_set Created)
                {| calls := calls s ++ [yum_call file_exists
                                          ["install"; YumPackage.name resource]];
                   shell_change := shell_change s |} Hu)
      as [e He].
    exists e. rewrite He. cbn [calls shell_change]. now rewrite <- app_assoc.
  - intros Hi Hu. rewrite yum_step_ok by exact Hi.
    rewrite yum_step_ok by exact Hu. unfold shell_set. cbn.
    now rewrite <- app_assoc.
Qed.
End YumApplyFacts.

Lemma yum_install_then_update_witness :
  (exists e, YumApply.do_changes no_dnf (failing_on "install" ("", "No package", 1%Z))
               (bash "installed")
               {[ "state" := change (PStr "removed") (PStr "installed") ]} fresh_shell
             = (Raise e, {| calls := [yum_call no_dnf ["install"; "bash"]];
                            shell_change := None |}))
  /\ (exists e, YumApply.do_changes no_dnf (failing_on "update" ("", "Error", 1%Z))
                  (bash "installed")
                  {[ "state" := change (PStr "removed") (PStr "installed") ]} fresh_shell
                = (Raise e, {| calls := [yum_call no_dnf ["install"; "bash"];
                                         yum_call no_dnf ["update"; "bash"]];
                               shell_change := None |}))
  /\ YumApply.do_changes no_dnf (always ("", "", 0%Z)) (bash "installed")
       {[ "state" := change (PStr "removed") (PStr "installed") ]} fresh_shell
     = (Ok tt, {| calls := [yum_call no_dnf ["install"; "bash"];
                            yum_call no_dnf ["update"; "bash"]];
                  shell_change := Some Created |}).
Proof.
  split; [|split].
  - destruct (yum_install_then_update no_dnf
                (failing_on "install" ("", "No package", 1%Z)) (bash "installed")
                {[ "state" := change (PStr "removed") (PStr "installed") ]}
                (PStr "removed") fresh_shell) as (H & _ & _); [reflexivity|].
    apply H. vm_compute. discriminate.
  - destruct (yum_install_then_update no_dnf
                (failing_on "update" ("", "Error", 1%Z)) (bash "installed")
                {[ "state" := change (PStr "removed") (PStr "installed") ]}
                (PStr "removed") fresh_shell) as (_ & H & _); [reflexivity|].
    apply H; vm_compute; [reflexivity|discriminate].
  - destruct (yum_install_then_update no_dnf
                (always ("", "", 0%Z)) (bash "installed")
                {[ "state" := change (PStr "removed") (PStr "installed") ]}
                (PStr "removed") fresh_shell) as (_ & _ & H); [reflexivity|].
    apply H; reflexivity.
Defined.

(** ** [list_changes] followed by [do_changes] *)

(** The change-sets [list_changes] can return. *)
Lemma list_changes_forms (file_exists : string -> bool)
      (run0 : string -> list string -> string * string * Z)
      (resource : YumPackage.Package) (changes : gmap string pyval) :
  YumPackage.list_changes file_exists run0 resource = Ok changes ->
  changes = ∅
  \/ (exists cur, changes !! "state" = Some (PTuple cur (PStr "removed")))
  \/ (exists cur, changes !! "state" = Some (PTuple cur (PStr "installed")))
  \/ (changes !! "state" = None /\ is_Some (changes !! "version")).
Proof.
  unfold YumPackage.list_changes.
  destruct (YumPackage.check_resource file_exists run0 resource) as [st|e];
    cbn [mbind result_bind]; [|discriminate].
  set (first :=
         if String.eqb (YumPackage.state resource) "removed" then _ else _).
  assert (forall ch1, first = Ok ch1 ->
            ch1 = ∅
            \/ (exists cur, ch1 = {[ "state" := PTuple cur (PStr "removed") ]})
            \/ (exists cur, ch1 = {[ "state" := PTuple cur (PStr "installed") ]}))
    as Hfirst.
  { unfold first. intros ch1.
    destruct (String.eqb_spec (YumPackage.state resource) "removed") as [E|_].
    - destruct (getitem st "state") as [cur|e]; cbn [mbind result_bind];
        [|discriminate].
      destruct (negb (bool_decide (cur = PStr "removed"))); intros [= <-];
        [|now left].
      right. left. exists cur. now rewrite E.
    - destruct (String.eqb (YumPackage.state resource) "installed"
                || String.eqb (YumPackage.state resource) "latest");
        [|intros [= <-]; now left].
      destruct (getitem st "state") as [cur|e]; cbn [mbind result_bind];
        [|discriminate].
      destruct (negb (bool_decide (cur = PStr "installed"))); intros [= <-];
        [|now left].
      right. right. now exists cur. }
  destruct first as [ch1|e]; cbn [mbind result_bind]; [|discriminate].
  specialize (Hfirst ch1 eq_refl).
  assert (forall v, <["version" := v]> ch1 = ∅
                    \/ (exists cur, <["version" := v]> ch1 !! "state"
                                    = Some (PTuple cur (PStr "removed")))
                    \/ (exists cur, <["version" := v]> ch1 !! "state"
                                    = Some (PTuple cur (PStr "installed")))
                    \/ (<["version" := v]> ch1 !! "state" = None
                        /\ is_Some (<["version" := v]> ch1 !! "version")))
    as Hversion.
  { intros v. right.
    rewrite lookup_insert_ne by discriminate. rewrite lookup_insert_eq.
    destruct Hfirst as [->|[[cur ->]|[cur ->]]].
    - right. right. split; [apply lookup_empty|eauto].
    - left. exists cur. apply lookup_singleton_eq.
    - right. left. exists cur. apply lookup_singleton_eq. }
  assert (ch1 = ∅
          \/ (exists cur, ch1 !! "state" = Some (PTuple cur (PStr "removed")))
          \/ (exists cur, ch1 !! "state" = Some (PTuple cur (PStr "installed")))
          \/ (ch1 !! "state" = None /\ is_Some (ch1 !! "version"))) as Hsame.
  { destruct Hfirst as [->|[[cur ->]|[cur ->]]]; [now left| |].
    - right. left. exists cur. apply lookup_singleton_eq.
    - right. right. left. exists cur. apply lookup_singleton_eq. }
  destruct (st !! "update") as [upd|]; [|intros [= <-]; exact Hsame].
  destruct (negb (bool_decide (upd = PNone))
            && String.eqb (YumPackage.state resource) "latest");
    [|intros [= <-]; exact Hsame].
  destruct (getitem st "version") as [ver|e]; cbn [mbind result_bind];
    [|discriminate].
  destruct (getitem st "release") as [rel|e]; cbn [mbind result_bind];
    [|discriminate].
  intros [= <-]. apply Hversion.
Qed.

(** X10.  For a change-set returned by [list_changes]: when it is
    empty, [do_changes] runs no command and leaves the context as it
    is; when it is not empty, [do_changes] runs at least one package
    command, the first being remove, install or update. *)
Theorem yum_acts_iff_changed (file_exists : string -> bool)
        (run0 : string -> list string -> string * string * Z)
        (respond : list run_call -> run_call -> string * string * Z)
        (resource : YumPackage.Package) (changes : gmap string pyval)
        (s : shell) :
  YumPackage.list_changes file_exists run0 resource = Ok changes ->
  (changes = ∅ ->
     YumApply.do_changes file_exists respond resource changes s = (Ok tt, s))
  /\ (changes <> ∅ ->
      exists verb rest,
        In verb ["remove"; "install"; "update"]
        /\ calls (YumApply.do_changes file_exists respond resource changes s).2
           = (calls s ++ yum_call file_exists [verb; YumPackage.name resource]
                         :: rest)%list).
Proof.
  intros Hl. split.
  - intros ->. reflexivity.
  - intros Hne.
    assert (forall verb (k : M shell unit),
              (forall s', (k s').1 = Ok tt /\ calls (k s').2 = calls s') ->
              calls ((out ← YumApply._run_yum file_exists respond
                               [verb; YumPackage.name resource];
                      YumApply._result out;; k) s).2
              = (calls s ++ [yum_call file_exists
                               [verb; YumPackage.name resource]])%list)
      as Hstep.
    { intros verb k Hk.
      destruct (Z.eq_dec (respond (calls s)
                  (yum_call file_exists [verb; YumPackage.name resource])).2 0%Z)
        as [Hz|Hz].
      - rewrite (yum_step_ok file_exists respond _ k s Hz).
        now rewrite (proj2 (Hk _)).
      - destruct (yum_step_fail file_exists respond _ k s Hz) as [e ->].
        reflexivity. }
    unfold YumApply.do_changes.
    destruct (list_changes_forms _ _ _ _ Hl)
      as [->|[[cur Hs]|[[cur Hs]|[Hs [v Hv]]]]]; [contradiction| | |].
    + rewrite Hs. erewrite bind_ok by reflexivity.
      rewrite bool_decide_eq_true_2 by reflexivity.
      exists "remove", []. split; [simpl; auto|].
      apply Hstep. intros s'. split; reflexivity.
    + rewrite Hs. erewrite bind_ok by reflexivity.
      rewrite bool_decide_eq_false_2 by discriminate.
      rewrite bool_decide_eq_true_2 by reflexivity.
      destruct (Z.eq_dec (respond (calls s)
                  (yum_call file_exists ["install"; YumPackage.name resource])).2 0%Z)
        as [Hz|Hz].
      * rewrite (yum_step_ok file_exists respond _ _ s Hz).
        exists "install".
        set (s1 := {| calls := calls s ++ [yum_call file_exists
                                             ["install"; YumPackage.name resource]];
                      shell_change := shell_change s |}).
        destruct (Z.eq_dec (respond (calls s1)
                    (yum_call file_exists ["update"; YumPackage.name resource])).2
                    0%Z) as [Hu|Hu].
        -- rewrite (yum_step_ok file_exists respond _ _ s1 Hu).
           eexists. split; [simpl; auto|]. cbn. now rewrite <- app_assoc.
        -- destruct (yum_step_fail file_exists respond
                       ["update"; YumPackage.name resource] (shell_set Created)
                       s1 Hu) as [e ->].
           eexists. split; [simpl; auto|]. cbn. now rewrite <- app_assoc.
      * destruct (yum_step_fail file_exists respond
                    ["install"; YumPackage.name resource]
                    (out ← YumApply._run_yum file_exists respond
                             ["update"; YumPackage.name resource];
                     YumApply._result out;; shell_set Created) s Hz) as [e ->].
        exists "install", []. split; [simpl; auto|reflexivity].
    + rewrite Hs, Hv.
      exists "update", []. split; [simpl; auto|].
      apply Hstep. intros s'. split; reflexivity.
Qed.

Lemma yum_acts_iff_changed_witness :
  YumApply.do_changes no_dnf (always ("", "", 0%Z)) (bash "latest") ∅ fresh_shell
  = (Ok tt, fresh_shell).
Proof.
  eapply (yum_acts_iff_changed no_dnf (yum_host bash_info [""])
            (always ("", "", 0%Z)) (bash "latest") ∅ fresh_shell);
    reflexivity.
Defined.

(** ** Service handlers *)

(** X11.  Once the systemd probe has found a [systemctl] binary, the
    handler keeps reporting itself available, also on a later probe
    that finds none; and [/usr/bin/systemctl] is preferred over
    [/bin/systemctl] when both exist. *)
Theorem systemd_available_sticky (file_exists file_exists' : string -> bool)
        (self : SystemdService.handler) :
  ((SystemdService.available file_exists self).1 = true ->
     (SystemdService.available file_exists'
        (SystemdService.available file_exists self).2).1 = true)
  /\ (file_exists "/usr/bin/systemctl" = true ->
        SystemdService._systemd_path (SystemdService.available file_exists self).2
        = Some "/usr/bin/systemctl")
  /\ (file_exists "/usr/bin/systemctl" = false ->
      file_exists "/bin/systemctl" = false ->
      (SystemdService.available file_exists self).2 = self).
Proof.
  unfold SystemdService.available. split; [|split].
  - destruct (file_exists "/usr/bin/systemctl"), (file_exists "/bin/systemctl"),
      (file_exists' "/usr/bin/systemctl"), (file_exists' "/bin/systemctl");
      simpl; try reflexivity; intros H; exact H.
  - intros ->. reflexivity.
  - intros -> ->. reflexivity.
Qed.

Lemma systemd_available_sticky_witness :
  (SystemdService.available (present [])
     (SystemdService.available (present ["/bin/systemctl"]) SystemdService.init).2).1
  = true.
Proof.
  apply (proj1 (systemd_available_sticky (present ["/bin/systemctl"]) (present [])
                  SystemdService.init)).
  reflexivity.
Defined.

Section ServiceFacts.
Context (respond : list run_call -> run_call -> string * string * Z).

(** X12.  [SystemdService.do_changes]: with neither ["state"] nor
    ["onboot"] in the change-set nothing is run and the context is left
    alone.  For a state change the verb is [stop] when the desired
    state is ["stopped"] and [start] for every other value; when that
    command's error output begins with [Failed] the handler raises, no
    enable or disable is attempted and the resource is not marked
    updated.  When the state command and the boot command both pass,
    they are run in that order ([disable] for a false desired flag,
    [enable] otherwise) and the resource is marked updated. *)
Theorem systemd_do_changes (self : SystemdService.handler)
        (resource : Services.Service)
        (changes : gmap string (gmap string pyval)) (s : shell) :
  (changes !! "state" = None -> changes !! "onboot" = None ->
     Services.Systemd.do_changes respond self resource changes s = (Ok tt, s))
  /\ (forall ch d,
        changes !! "state" = Some ch -> ch !! "desired" = Some d ->
        let c := systemd_call self (state_action d) (Services.name resource) in
        String.prefix "Failed" (respond (calls s) c).1.2 = true ->
        exists e,
          Services.Systemd.do_changes respond self resource changes s
          = (Raise e, {| calls := calls s ++ [c];
                         shell_change := shell_change s |}))
  /\ (forall ch d ch' d',
        changes !! "state" = Some ch -> ch !! "desired" = Some d ->
        changes !! "onboot" = Some ch' -> ch' !! "desired" = Some d' ->
        let c := systemd_call self (state_action d) (Services.name resource) in
        let c' := systemd_call self (if truthy d' then "enable" else "disable")
                    (Services.name resource) in
        String.prefix "Failed" (respond (calls s) c).1.2 = false ->
        String.prefix "Failed" (respond (calls s ++ [c]) c').1.2 = false ->
        Services.Systemd.do_changes respond self resource changes s
        = (Ok tt, {| calls := calls s ++ [c; c'];
                     shell_change := Some Updated |})).
Proof.
  unfold Services.Systemd.do_changes, systemd_call, state_action.
  split; [|split].
  - intros -> ->. destruct s. reflexivity.
  - intros ch d -> Hd Hfail.
    unfold getitem. rewrite Hd. run_shell. rewrite Hfail. eauto.
  - intros ch d ch' d' -> Hd -> Hd' Hok Hok'.
    unfold getitem. rewrite Hd, Hd'. run_shell. rewrite Hok. cbn.
    destruct (truthy d'); cbn in *; rewrite Hok'; cbn;
      now rewrite <- app_assoc.
Qed.

(** X13.  [ServiceService.do_changes] takes the same decisions with the
    legacy tools: [service <name> stop|start] for a state change,
    [chkconfig <name> off|on] for a boot change; a [Failed] state
    command stops the handler before [chkconfig] is run and without
    marking the resource updated. *)
Theorem redhat_do_changes (resource : Services.Service)
        (changes : gmap string (gmap string pyval)) (s : shell) :
  (changes !! "state" = None -> changes !! "onboot" = None ->
     Services.Redhat.do_changes respond resource changes s = (Ok tt, s))
  /\ (forall ch d,
        changes !! "state" = Some ch -> ch !! "desired" = Some d ->
        let c := service_call (Services.name resource) (state_action d) in
        String.prefix "Failed" (respond (calls s) c).1.2 = true ->
        exists e,
          Services.Redhat.do_changes respond resource changes s
          = (Raise e, {| calls := calls s ++ [c];
                         shell_change := shell_change s |}))
  /\ (forall ch d ch' d',
        changes !! "state" = Some ch -> ch !! "desired" = Some d ->
        changes !! "onboot" = Some ch' -> ch' !! "desired" = Some d' ->
        let c := service_call (Services.name resource) (state_action d) in
        let c' := chkconfig_call (Services.name resource)
                    (if truthy d' then "on" else "off") in
        String.prefix "Failed" (respond (calls s) c).1.2 = false ->
        String.prefix "Failed" (respond (calls s ++ [c]) c').1.2 = false ->
        Services.Redhat.do_changes respond resource changes s
        = (Ok tt, {| calls := calls s ++ [c; c'];
                     shell_change := Some Updated |})).
Proof.
  unfold Services.Redhat.do_changes, service_call, chkconfig_call, state_action.
  split; [|split].
  - intros -> ->. destruct s. reflexivity.
  - intros ch d -> Hd Hfail.
    unfold getitem. rewrite Hd. run_shell. rewrite Hfail. eauto.
  - intros ch d ch' d' -> Hd -> Hd' Hok Hok'.
    unfold getitem. rewrite Hd, Hd'. run_shell. rewrite Hok. cbn.
    destruct (truthy d'); cbn in *; rewrite Hok'; cbn;
      now rewrite <- app_assoc.
Qed.

(** X14.  The check step of both service handlers never touches the
    change flag of the context.  A snapshot it returns has the name and
    reload flag of the desired resource and a state that is
    ["running"] or ["stopped"], and three queries were run for it; when
    the service does not exist, the exception is raised after the first
    query and no further query is run. *)
Theorem service_check_snapshot (self : SystemdService.handler)
        (resource : Services.Service) (s : shell) :
  (let out := Services.Systemd.check_resource respond self resource s in
   shell_change out.2 = shell_change s
   /\ match out.1 with
      | Ok cur =>
        Services.name cur = Services.name resource
        /\ Services.reload cur = Services.reload resource
        /\ (Services.state cur = "running" \/ Services.state cur = "stopped")
        /\ List.length (calls out.2) = (List.length (calls s) + 3)%nat
      | Raise e =>
        (exists msg, e = ResourceNotFoundExcpetion msg)
        /\ calls out.2
           = (calls s ++ [systemd_call self "status" (Services.name resource)])%list
      end)
  /\ (let out := Services.Redhat.check_resource respond resource s in
      shell_change out.2 = shell_change s
      /\ match out.1 with
         | Ok cur =>
           Services.name cur = Services.name resource
           /\ Services.reload cur = Services.reload resource
           /\ (Services.state cur = "running" \/ Services.state cur = "stopped")
           /\ List.length (calls out.2) = (List.length (calls s) + 3)%nat
         | Raise e =>
           (exists msg, e = ResourceNotFoundExcpetion msg)
           /\ calls out.2
              = (calls s ++ [chkconfig_call "--list" (Services.name resource)])%list
         end).
Proof.
  split.
  - unfold Services.Systemd.check_resource, systemd_call. run_shell.
    destruct (contains "Loaded: error" _); cbn.
    + split; [reflexivity|]. split; [eauto|reflexivity].
    + split; [reflexivity|]. repeat split.
      * destruct (_ =? 0)%Z; auto.
      * rewrite !length_app. simpl. lia.
  - unfold Services.Redhat.check_resource, chkconfig_call. run_shell.
    destruct (contains "error reading information on service" _); cbn.
    + split; [reflexivity|]. split; [eauto|reflexivity].
    + split; [reflexivity|]. repeat split.
      * destruct (_ =? 0)%Z; auto.
      * rewrite !length_app. simpl. lia.
Qed.
End ServiceFacts.

Lemma systemd_do_changes_witness :
  (exists e,
     Services.Systemd.do_changes
       (failing_on "start" ("", "Failed to start sshd.service", 1%Z))
       {| SystemdService._systemd_path := Some "/bin/systemctl" |}
       (sshd true "running")
       {[ "state" := desired (PStr "running");
          "onboot" := desired (PBool true) ]} fresh_shell
     = (Raise e,
        {| calls := [{| cmd := Some "/bin/systemctl";
                        cmd_args := ["start"; "sshd.service"] |}];
           shell_change := None |}))
  /\ Services.Systemd.do_changes (always ("", "", 0%Z))
       {| SystemdService._systemd_path := Some "/bin/systemctl" |}
       (sshd false "stopped")
       {[ "state" := desired (PStr "stopped");
          "onboot" := desired (PBool false) ]} fresh_shell
     = (Ok tt,
        {| calls := [{| cmd := Some "/bin/systemctl";
                        cmd_args := ["stop"; "sshd.service"] |};
                     {| cmd := Some "/bin/systemctl";
                        cmd_args := ["disable"; "sshd.service"] |}];
           shell_change := Some Updated |}).
Proof.
  split.
  - eapply (proj1 (proj2 (systemd_do_changes
              (failing_on "start" ("", "Failed to start sshd.service", 1%Z))
              {| SystemdService._systemd_path := Some "/bin/systemctl" |}
              (sshd true "running")
              {[ "state" := desired (PStr "running");
                 "onboot" := desired (PBool true) ]} fresh_shell))
             (desired (PStr "running")) (PStr "running")); reflexivity.
  - eapply (proj2 (proj2 (systemd_do_changes (always ("", "", 0%Z))
              {| SystemdService._systemd_path := Some "/bin/systemctl" |}
              (sshd false "stopped")
              {[ "state" := desired (PStr "stopped");
                 "onboot" := desired (PBool false) ]} fresh_shell))
             (desired (PStr "stopped")) (PStr "stopped")
             (desired (PBool false)) (PBool false)); reflexivity.
Defined.

Lemma redhat_do_changes_witness :
  Services.Redhat.do_changes (always ("", "", 0%Z)) (sshd true "running")
    {[ "state" := desired (PStr "running");
       "onboot" := desired (PBool true) ]} fresh_shell
  = (Ok tt,
     {| calls := [{| cmd := Some "/sbin/service"; cmd_args := ["sshd"; "start"] |};
                  {| cmd := Some "/sbin/chkconfig"; cmd_args := ["sshd"; "on"] |}];
        shell_change := Some Updated |}).
Proof.
  eapply (proj2 (proj2 (redhat_do_changes (always ("", "", 0%Z))
            (sshd true "running")
            {[ "state" := desired (PStr "running");
               "onboot" := desired (PBool true) ]} fresh_shell))
           (desired (PStr "running")) (PStr "running")
           (desired (PBool true)) (PBool true)); reflexivity.
Defined.

(** ** Reading a file; the directory handler *)

(** The loop of [setattr] calls leaves the attributes of [d] on top of
    those of [obj]. *)
Lemma setattrs_union (d obj : gmap string pyval) : setattrs d obj = d ∪ obj.
Proof.
  unfold setattrs. induction d as [|k v d Hk _ IH] using map_first_key_ind.
  - rewrite map_fold_empty. now rewrite (left_id_L ∅ (∪)).
  - rewrite map_fold_insert_L.
    + rewrite IH. now rewrite insert_union_l.
    + intros j1 j2 z1 z2 y Hne _ _. now apply insert_insert_ne.
    + exact Hk.
Qed.

Section FileReadFacts.
Context (file_exists : pyval -> bool)
        (io_hash_file : pyval -> pyval)
        (read_binary : pyval -> pyval)
        (file_stat : pyval -> gmap string pyval)
        (stat_file : pyval -> bool).

Local Abbreviation read_resource :=
  (PosixFileRead.read_resource file_exists io_hash_file read_binary
     file_stat stat_file).

(** X15.  [PosixFileProvider.read_resource] on a resource with a path:
    when the file is absent it raises [ResourcePurged] and does
    nothing; otherwise it uploads the file's content under the file's
    hash exactly when the content store does not have that hash, and
    returns the resource with every attribute reported by [file_stat]
    set to the reported value, [hash] set to the file's hash unless
    [file_stat] reports a hash, and every other attribute as it was. *)
Theorem file_read_resource (resource : gmap string pyval) (p : pyval)
        (a : fs_agent) :
  resource !! "path" = Some p ->
  (file_exists p = false ->
     read_resource resource a = (Raise ResourcePurged, a))
  /\ (file_exists p = true ->
      exists current,
        read_resource resource a
        = (Ok current,
           {| fs_log := fs_log a
                        ++ (if stat_file (io_hash_file p) then []
                            else [Upload (io_hash_file p) (read_binary p)]);
              fs_change := fs_change a |})
        /\ (forall k v, file_stat p !! k = Some v -> current !! k = Some v)
        /\ (file_stat p !! "hash" = None ->
            current !! "hash" = Some (io_hash_file p))
        /\ (forall k, file_stat p !! k = None -> k <> "hash" ->
              current !! k = resource !! k)).
Proof.
  intros Hp. unfold PosixFileRead.read_resource, getattr.
  rewrite Hp. split.
  - intros Hx. run_fs. now rewrite Hx.
  - intros Hx.
    exists (file_stat p ∪ <["hash" := io_hash_file p]> resource).
    split; [|split; [|split]].
    + run_fs. rewrite Hx. cbn.
      rewrite lookup_insert_ne by discriminate. rewrite Hp. cbn.
      rewrite lookup_insert_eq. cbn. rewrite setattrs_union.
      destruct a as [log c].
      destruct (stat_file (io_hash_file p)); cbn;
        [now rewrite app_nil_r|reflexivity].
    + intros k v Hk. now apply lookup_union_Some_l.
    + intros Hk. rewrite lookup_union_r by exact Hk. apply lookup_insert_eq.
    + intros k Hk Hne. rewrite lookup_union_r by exact Hk.
      now apply lookup_insert_ne.
Qed.
End FileReadFacts.

Lemma file_read_resource_witness :
  exists current,
    PosixFileRead.read_resource (fun _ => true) (fun _ => PStr "sha1:hello")
      (fun _ => PStr "hello")
      (fun _ => {[ "owner" := PStr "root"; "permissions" := PInt 644 ]})
      (fun _ => false)
      {[ "path" := PStr "/tmp/a"; "owner" := PStr "nobody" ]} fresh_fs_agent
    = (Ok current,
       {| fs_log := [Upload (PStr "sha1:hello") (PStr "hello")];
          fs_change := None |})
    /\ current !! "owner" = Some (PStr "root")
    /\ current !! "hash" = Some (PStr "sha1:hello")
    /\ current !! "path" = Some (PStr "/tmp/a").
Proof.
  destruct (file_read_resource (fun _ => true) (fun _ => PStr "sha1:hello")
              (fun _ => PStr "hello")
              (fun _ => {[ "owner" := PStr "root"; "permissions" := PInt 644 ]})
              (fun _ => false)
              {[ "path" := PStr "/tmp/a"; "owner" := PStr "nobody" ]}
              (PStr "/tmp/a") fresh_fs_agent) as [_ H]; [reflexivity|].
  destruct (H eq_refl) as (current & Hrun & Hstat & Hhash & Hother).
  exists current. split; [exact Hrun|]. split; [|split].
  - apply Hstat. reflexivity.
  - apply Hhash. reflexivity.
  - rewrite Hother; [reflexivity|reflexivity|discriminate].
Defined.

(** X16.  [DirectoryHandler.update_resource] never raises and always
    marks the resource updated, whether or not the path exists and also
    for an empty change-set.  On an existing path and a change-set
    without ["hash"], it issues the very [chmod] and [chown] commands
    that [PosixFileProvider.update_resource] issues for a file with the
    same attributes. *)
Theorem directory_update_like_file (sha1_hexdigest : string -> string)
        (file_exists : string -> bool) (get_file : string -> string)
        (changes : gmap string pyval) (r : File) (a : agent) (b : fs_agent) :
  exists calls,
    DirectoryHandler.update_resource changes (as_directory r) b
    = (Ok tt, {| fs_log := fs_log b ++ map Basic calls;
                 fs_change := Some Updated |})
    /\ (forall c, In c calls ->
          c = Chmod (path r) (pretty (permissions r))
          \/ c = Chown (path r) (owner r) (group r))
    /\ (file_exists (path r) = true -> changes !! "hash" = None ->
        PosixFileProvider.update_resource sha1_hexdigest file_exists get_file
          changes r a
        = (Ok tt, {| io_log := io_log a ++ calls; ctx_change := Some Updated |})).
Proof.
  exists ((if bool_decide (is_Some (changes !! "permissions"))
           then [Chmod (path r) (pretty (permissions r))] else [])
          ++ (if bool_decide (is_Some (changes !! "owner"))
                 || bool_decide (is_Some (changes !! "group"))
              then [Chown (path r) (owner r) (group r)] else []))%list.
  split; [|split].
  - unfold DirectoryHandler.update_resource, as_directory. destruct b as [log c].
    destruct (bool_decide (is_Some (changes !! "permissions")));
      destruct (bool_decide (is_Some (changes !! "owner"))
                || bool_decide (is_Some (changes !! "group")));
      run_fs; rewrite <- ?app_assoc, ?app_nil_r; reflexivity.
  - intros c Hc. apply in_app_iff in Hc.
    destruct (bool_decide (is_Some (changes !! "permissions")));
      destruct (bool_decide (is_Some (changes !! "owner"))
                || bool_decide (is_Some (changes !! "group")));
      simpl in Hc; intuition.
  - intros Hx Hh.
    unfold PosixFileProvider.update_resource, PosixFileProvider.has_key.
    rewrite Hx, Hh. destruct a as [log c].
    rewrite (bool_decide_eq_false_2 (is_Some None)) by (intros [x Hn]; discriminate Hn).
    destruct (bool_decide (is_Some (changes !! "permissions")));
      destruct (bool_decide (is_Some (changes !! "owner"))
                || bool_decide (is_Some (changes !! "group")));
      run_M; rewrite <- ?app_assoc, ?app_nil_r; reflexivity.
Qed.

Lemma directory_update_like_file_witness :
  PosixFileProvider.update_resource toy_digest (only "/tmp/a") toy_store
    {[ "owner" := change (PStr "nobody") (PStr "root") ]}
    (file_a "sha1:hello") fresh_agent
  = (Ok tt, {| io_log := [Chown "/tmp/a" "root" "wheel"];
               ctx_change := Some Updated |})
  /\ DirectoryHandler.update_resource
       {[ "owner" := change (PStr "nobody") (PStr "root") ]}
       (as_directory (file_a "sha1:hello")) fresh_fs_agent
     = (Ok tt, {| fs_log := [Basic (Chown "/tmp/a" "root" "wheel")];
                  fs_change := Some Updated |}).
Proof.
  destruct (directory_update_like_file toy_digest (only "/tmp/a") toy_store
              {[ "owner" := change (PStr "nobody") (PStr "root") ]}
              (file_a "sha1:hello") fresh_agent fresh_fs_agent)
    as (calls & Hd & _ & Hf).
  assert (calls = [Chown "/tmp/a" "root" "wheel"]) as ->.
  { vm_compute in Hd. injection Hd as Hd.
    destruct calls as [|c [|c' l]]; try discriminate Hd.
    simpl in Hd. injection Hd as ->. reflexivity. }
  split; [apply Hf; reflexivity|exact Hd].
Defined.

(** ** [SymlinkProvider]: round trips *)

(** X17.  On a filesystem where [symlink] on a free path leaves a link
    to the source and [remove] frees an existing path: creating a link
    on a free target, and updating a link on an existing target, are
    both followed by a read that returns the desired resource (the
    update removes before it links, so the old link is replaced);
    deleting is followed by a read that is purged. *)
Theorem symlink_round_trips {W : Type} `{SymlinkProvider.LinkIO W}
        (r : SymlinkProvider.Symlink) (changes : gmap string pyval)
        (a : SymlinkProvider.link_agent W) :
  link_laws W ->
  (SymlinkProvider.file_exists (SymlinkProvider.target r)
     (SymlinkProvider.world a) = false ->
   exists a1,
     SymlinkProvider.create_resource r a = (Ok tt, a1)
     /\ SymlinkProvider.link_change a1 = Some Created
     /\ SymlinkProvider.read_resource r a1 = (Ok r, a1))
  /\ (SymlinkProvider.file_exists (SymlinkProvider.target r)
        (SymlinkProvider.world a) = true ->
      exists a1,
        SymlinkProvider.update_resource changes r a = (Ok tt, a1)
        /\ SymlinkProvider.link_change a1 = Some Updated
        /\ SymlinkProvider.read_resource r a1 = (Ok r, a1))
  /\ (SymlinkProvider.file_exists (SymlinkProvider.target r)
        (SymlinkProvider.world a) = true ->
      exists a1,
        SymlinkProvider.delete_resource r a = (Ok tt, a1)
        /\ SymlinkProvider.link_change a1 = Some Purged
        /\ SymlinkProvider.read_resource r a1 = (Raise ResourcePurged, a1)).
Proof.
  intros [Hlink Hremove]. destruct a as [w c]. destruct r as [s t rl].
  cbn [SymlinkProvider.world SymlinkProvider.target]. split; [|split].
  - intros Hfree.
    destruct (Hlink s t w Hfree) as (w' & Hs & Hx & Hl & Hr).
    exists {| SymlinkProvider.world := w';
              SymlinkProvider.link_change := Some Created |}.
    run_link. rewrite Hs. cbn. split; [reflexivity|]. split; [reflexivity|].
    rewrite Hx. cbn. rewrite Hl. cbn. now rewrite Hr.
  - intros Hthere.
    destruct (Hremove t w Hthere) as (w1 & Hrm & Hfree).
    destruct (Hlink s t w1 Hfree) as (w' & Hs & Hx & Hl & Hr).
    exists {| SymlinkProvider.world := w';
              SymlinkProvider.link_change := Some Updated |}.
    run_link. rewrite Hrm. cbn. rewrite Hs. cbn.
    split; [reflexivity|]. split; [reflexivity|].
    rewrite Hx. cbn. rewrite Hl. cbn. now rewrite Hr.
  - intros Hthere.
    destruct (Hremove t w Hthere) as (w1 & Hrm & Hfree).
    exists {| SymlinkProvider.world := w1;
              SymlinkProvider.link_change := Some Purged |}.
    run_link. rewrite Hrm. cbn. split; [reflexivity|]. split; [reflexivity|].
    now rewrite Hfree.
Qed.

Lemma toy_link_laws : link_laws (gmap string (option string)).
Proof.
  split.
  - intros s t w Hfree. cbn in *.
    apply bool_decide_eq_false in Hfree.
    destruct (w !! t) as [x|] eqn:E; [exfalso; apply Hfree; eauto|].
    exists (<[t := Some s]> w). rewrite lookup_insert_eq.
    split; [reflexivity|]. split; [|split; reflexivity].
    apply bool_decide_eq_true. eauto.
  - intros t w Hthere. cbn in *.
    apply bool_decide_eq_true in Hthere. destruct Hthere as [x Hx].
    rewrite Hx. exists (delete t w). split; [reflexivity|].
    apply bool_decide_eq_false. rewrite lookup_delete_eq. intros [y Hy].
    discriminate Hy.
Qed.

Lemma symlink_round_trips_witness :
  (exists a1,
     SymlinkProvider.create_resource (link "/etc/motd" "/tmp/motd") (on_world ∅)
     = (Ok tt, a1)
     /\ SymlinkProvider.read_resource (link "/etc/motd" "/tmp/motd") a1
        = (Ok (link "/etc/motd" "/tmp/motd"), a1))
  /\ (exists a1,
        SymlinkProvider.update_resource ∅ (link "/etc/motd" "/tmp/motd")
          (on_world {[ "/tmp/motd" := Some "/etc/issue" ]})
        = (Ok tt, a1)
        /\ SymlinkProvider.read_resource (link "/etc/motd" "/tmp/motd") a1
           = (Ok (link "/etc/motd" "/tmp/motd"), a1)).
Proof.
  split.
  - destruct (proj1 (symlink_round_trips (link "/etc/motd" "/tmp/motd") ∅
                       (on_world ∅) toy_link_laws))
      as (a1 & Hc & _ & Hr); [reflexivity|].
    exists a1. split; assumption.
  - destruct (proj1 (proj2 (symlink_round_trips (link "/etc/motd" "/tmp/motd") ∅
                       (on_world {[ "/tmp/motd" := Some "/etc/issue" ]})
                       toy_link_laws)))
      as (a1 & Hu & _ & Hr); [reflexivity|].
    exists a1. split; assumption.
Defined.

(** ** Content assembler: fragments without sorting keys *)

Lemma sorted_map_fst (l : list (string * string)) :
  StronglySorted tuple_le l ->
  StronglySorted (fun a b : string => String.leb a b = true) (map fst l).
Proof.
  induction 1 as [|t l Hl IH Ht]; simpl; constructor; [exact IH|].
  apply Forall_map. exact Ht.
Qed.

(** X18.  When no fragment has a sorting key, [generate_content] gives
    the values in ascending order, each input value once, and the
    output does not depend on the order of the fragments. *)
Theorem generate_content_unkeyed (l l' : list Assembler.Content) (sep : string) :
  (forall c, In c l -> Assembler.sorting_key c = None) ->
  Permutation l l' ->
  Assembler.generate_content l sep = join sep (ordered_values l) ++ sep
  /\ StronglySorted (fun a b : string => String.leb a b = true) (ordered_values l)
  /\ Permutation (ordered_values l) (map Assembler.value l)
  /\ Assembler.generate_content l' sep = Assembler.generate_content l sep.
Proof.
  intros Hnone Hp.
  assert (map Assembler.sort_tuple l
          = map (fun c => (Assembler.value c, Assembler.value c)) l) as Htup.
  { apply map_ext_in. intros c Hc. unfold Assembler.sort_tuple.
    now rewrite (Hnone c Hc). }
  assert (Permutation (Assembler.sorted_tuples l) (map Assembler.sort_tuple l))
    as Hperm by apply sort_by_perm.
  assert (map snd (Assembler.sorted_tuples l) = map fst (Assembler.sorted_tuples l))
    as Hsnd.
  { apply map_ext_in. intros t Ht.
    eapply Permutation_in in Ht; [|exact Hperm].
    rewrite Htup in Ht. apply in_map_iff in Ht as (c & <- & _). reflexivity. }
  split; [reflexivity|]. split; [|split].
  - unfold ordered_values. rewrite Hsnd. apply sorted_map_fst.
    apply (sort_by_sorted fst String.leb String.leb_total string_leb_trans).
  - unfold ordered_values.
    rewrite (Permutation_map snd Hperm), Htup, map_map. reflexivity.
  - unfold Assembler.generate_content.
    rewrite (sorted_tuples_perm_invariant l l'); [reflexivity| |exact Hp].
    intros a b Ha Hb. unfold Assembler.sort_tuple.
    rewrite (Hnone a Ha), (Hnone b Hb). simpl. auto.
Qed.

Lemma generate_content_unkeyed_witness :
  Assembler.generate_content [frag None "b"; frag None "c"; frag None "a"] ","
  = Assembler.generate_content [frag None "c"; frag None "a"; frag None "b"] ",".
Proof.
  apply (generate_content_unkeyed [frag None "c"; frag None "a"; frag None "b"]
           [frag None "b"; frag None "c"; frag None "a"] ",").
  - intros c Hc. simpl in Hc. destruct Hc as [<-|[<-|[<-|[]]]]; reflexivity.
  - symmetry.
    exact (Permutation_cons_append [frag None "c"; frag None "a"] (frag None "b")).
Defined.

(** ** Availability and the commands that follow *)

(** X19.  When the package handler reports itself available, the
    program [_run_yum] runs exists on the host: [dnf] when
    [/usr/bin/dnf] exists, [yum] otherwise. *)
Theorem yum_available_program_exists (file_exists : string -> bool)
        (respond : list run_call -> run_call -> string * string * Z)
        (args : list string) (s : shell) :
  YumApply.available file_exists = true ->
  exists p,
    file_exists p = true
    /\ YumApply._run_yum file_exists respond args s
       = (Ok (respond (calls s)
                {| cmd := Some p; cmd_args := ["-d"; "0"; "-e"; "0"; "-y"] ++ args |}),
          {| calls := calls s ++ [{| cmd := Some p;
                                     cmd_args := ["-d"; "0"; "-e"; "0"; "-y"] ++ args |}];
             shell_change := shell_change s |}).
Proof.
  unfold YumApply.available, YumApply._run_yum. intros Hav.
  apply andb_true_iff in Hav as [_ Hav].
  destruct (file_exists "/usr/bin/dnf") eqn:Hdnf.
  - exists "/usr/bin/dnf". split; [exact Hdnf|reflexivity].
  - rewrite orb_false_r in Hav.
    exists "/usr/bin/yum". split; [exact Hav|reflexivity].
Qed.

Lemma yum_available_program_exists_witness :
  exists p,
    present ["/bin/rpm"; "/usr/bin/yum"] p = true
    /\ YumApply._run_yum (present ["/bin/rpm"; "/usr/bin/yum"]) (always ("", "", 0%Z))
         ["info"; "bash"] fresh_shell
       = (Ok ("", "", 0%Z),
          {| calls := [{| cmd := Some p;
                          cmd_args := ["-d"; "0"; "-e"; "0"; "-y"; "info"; "bash"] |}];
             shell_change := None |}).
Proof.
  destruct (yum_available_program_exists (present ["/bin/rpm"; "/usr/bin/yum"])
              (always ("", "", 0%Z)) ["info"; "bash"] fresh_shell)
    as (p & Hp & Hrun); [reflexivity|].
  exists p. split; [exact Hp|exact Hrun].
Defined.

(** X20.  After a successful probe of a fresh systemd handler, the
    stored [systemctl] path exists on the probed host and every query
    of the check step is run through it; when the legacy handler
    reports itself available, every query of its check step is run
    through a program that exists. *)
Theorem service_check_programs_exist (file_exists : string -> bool)
        (respond : list run_call -> run_call -> string * string * Z)
        (resource : Services.Service) (s : shell) :
  ((SystemdService.available file_exists SystemdService.init).1 = true ->
     exists p new,
       SystemdService._systemd_path
         (SystemdService.available file_exists SystemdService.init).2 = Some p
       /\ file_exists p = true
       /\ calls (Services.Systemd.check_resource respond
                   (SystemdService.available file_exists SystemdService.init).2
                   resource s).2 = (calls s ++ new)%list
       /\ Forall (fun c => cmd c = Some p) new)
  /\ (ServiceService.available file_exists = true ->
      exists new,
        calls (Services.Redhat.check_resource respond resource s).2
        = (calls s ++ new)%list
        /\ Forall (fun c => exists p, cmd c = Some p /\ file_exists p = true) new).
Proof.
  split.
  - unfold SystemdService.available, SystemdService.init.
    destruct (file_exists "/usr/bin/systemctl") eqn:E1;
      [|destruct (file_exists "/bin/systemctl") eqn:E2]; cbn;
      [| |discriminate]; intros _; eexists;
      unfold Services.Systemd.check_resource; run_shell;
      (destruct (contains "Loaded: error" _); cbn;
       [eexists [_]|eexists [_; _; _]];
       (split; [reflexivity|]); (split; [eassumption|]);
       (split; [now rewrite <- ?app_assoc|]);
       repeat constructor).
  - unfold ServiceService.available. intros Hav.
    apply andb_true_iff in Hav as [Hav _].
    apply andb_true_iff in Hav as [Hchk Hsvc].
    unfold Services.Redhat.check_resource. run_shell.
    destruct (contains "error reading information on service" _); cbn;
      [eexists [_]|eexists [_; _; _]];
      (split; [now rewrite <- ?app_assoc|]);
      repeat constructor; eauto.
Qed.

Lemma service_check_programs_exist_witness :
  exists p new,
    present ["/bin/systemctl"] p = true
    /\ calls (Services.Systemd.check_resource (always ("", "", 0%Z))
                (SystemdService.available (present ["/bin/systemctl"])
                   SystemdService.init).2
                (sshd true "running") fresh_shell).2 = new
    /\ Forall (fun c => cmd c = Some p) new.
Proof.
  destruct (proj1 (service_check_programs_exist (present ["/bin/systemctl"])
                     (always ("", "", 0%Z)) (sshd true "running") fresh_shell))
    as (p & new & _ & Hp & Hcalls & Hall); [reflexivity|].
  exists p, new. split; [exact Hp|]. split; [exact Hcalls|exact Hall].
Defined.

(** ** [YumPackage.check_resource]: missing fields *)

(** X21.  When the info output has no [Repo] field the snapshot is
    just state ["removed"], whatever the check-update query answers;
    when it has [Repo] but lacks [Version], or has both but lacks
    [Release], the check step raises [KeyError] for the missing
    field. *)
Theorem check_resource_missing_fields (file_exists : string -> bool)
        (run0 : string -> list string -> string * string * Z)
        (resource : YumPackage.Package) (output : gmap string string) :
  YumPackage._parse_fields
    (tail (Text.split "010"
             (YumPackage._run_yum file_exists run0
                ["info"; YumPackage.name resource]).1.1))
  = Ok output ->
  (output !! "Repo" = None ->
     YumPackage.check_resource file_exists run0 resource
     = Ok {[ "state" := PStr "removed" ]})
  /\ (is_Some (output !! "Repo") -> output !! "Version" = None ->
      YumPackage.check_resource file_exists run0 resource
      = Raise (KeyError "Version"))
  /\ (is_Some (output !! "Repo") -> is_Some (output !! "Version") ->
      output !! "Release" = None ->
      YumPackage.check_resource file_exists run0 resource
      = Raise (KeyError "Release")).
Proof.
  intros Hparse. unfold YumPackage.check_resource.
  rewrite Hparse. cbn [mbind result_bind]. unfold getitem.
  split; [|split].
  - intros ->. reflexivity.
  - intros [repo ->] ->. reflexivity.
  - intros [repo ->] [ver ->] ->. reflexivity.
Qed.

Lemma check_resource_missing_fields_witness :
  YumPackage.check_resource no_dnf
    (yum_host ["Error: No matching Packages to list"]
       ["bash.x86_64    4.2.46-34.el7    updates"]) (bash "installed")
  = Ok {[ "state" := PStr "removed" ]}
  /\ YumPackage.check_resource no_dnf
       (yum_host ["Installed Packages"; "Name : bash"; "Repo : installed"] [""])
       (bash "installed")
     = Raise (KeyError "Version").
Proof.
  split.
  - destruct (check_resource_missing_fields no_dnf
                (yum_host ["Error: No matching Packages to list"]
                   ["bash.x86_64    4.2.46-34.el7    updates"]) (bash "installed") ∅)
      as (H & _ & _); [reflexivity|].
    apply H. reflexivity.
  - destruct (check_resource_missing_fields no_dnf
                (yum_host ["Installed Packages"; "Name : bash"; "Repo : installed"] [""])
                (bash "installed")
                (<["Repo" := "installed"]> (<["Name" := "bash"]> ∅)))
      as (_ & H & _); [reflexivity|].
    apply H; [vm_compute; eauto|reflexivity].
Defined.

(** ** [DirectoryHandler.read_resource] *)

(** X22.  [DirectoryHandler.read_resource] on a resource with a path is
    purged when the path is absent; otherwise it returns the resource
    with every attribute reported by [file_stat] set to the reported
    value and every other attribute, the path included unless
    reported, as it was. *)
Theorem directory_read_resource (file_exists : pyval -> bool)
        (file_stat : pyval -> gmap string pyval)
        (resource : gmap string pyval) (p : pyval) :
  resource !! "path" = Some p ->
  (file_exists p = false ->
     DirectoryHandler.read_resource file_exists file_stat resource
     = Raise ResourcePurged)
  /\ (file_exists p = true ->
      exists current,
        DirectoryHandler.read_resource file_exists file_stat resource = Ok current
        /\ (forall k v, file_stat p !! k = Some v -> current !! k = Some v)
        /\ (forall k, file_stat p !! k = None -> current !! k = resource !! k)).
Proof.
  intros Hp. unfold DirectoryHandler.read_resource, getattr. rewrite Hp.
  cbn [mbind result_bind]. split.
  - intros ->. reflexivity.
  - intros ->. cbn [negb mbind result_bind].
    exists (file_stat p ∪ resource). rewrite setattrs_union.
    split; [reflexivity|]. split.
    + intros k v Hk. now apply lookup_union_Some_l.
    + intros k Hk. now apply lookup_union_r.
Qed.

Lemma directory_read_resource_witness :
  exists current,
    DirectoryHandler.read_resource (fun _ => true)
      (fun _ => {[ "owner" := PStr "root" ]})
      {[ "path" := PStr "/srv"; "owner" := PStr "nobody" ]} = Ok current
    /\ current !! "owner" = Some (PStr "root")
    /\ current !! "path" = Some (PStr "/srv").
Proof.
  destruct (directory_read_resource (fun _ => true)
              (fun _ => {[ "owner" := PStr "root" ]})
              {[ "path" := PStr "/srv"; "owner" := PStr "nobody" ]}
              (PStr "/srv")) as [_ H]; [reflexivity|].
  destruct (H eq_refl) as (current & Hrun & Hstat & Hother).
  exists current. split; [exact Hrun|]. split.
  - apply Hstat. reflexivity.
  - rewrite Hother; reflexivity.
Defined.
